(** * Resume template renderer: a shallow embedding of [scripts/render_resume.py]

    The development follows the script top-down: the Python string
    primitives the script calls, the JSON values it reads, the template
    filters ([latex_escape], [join_tech], [format_duration]), the config
    loader ([load_json_file], [load_all_configs]) and the driver
    ([render_resume], [main]).

    Strings are sequences of characters with code points below 256
    ([Stdlib.Strings.String]).  A Python call that may raise returns an
    [outcome]; code that prints or touches files is a function of the
    [world] it runs in. *)

From Stdlib Require Import String Ascii List ZArith Lia Bool.
From Stdlib Require Import DecimalString DecimalPos DecimalZ DecimalFacts.
Import ListNotations.
Open Scope string_scope.
Set Warnings "-register-all".

(** ** Exceptions and results *)

Inductive exn : Type :=
| ValueError
| IndexError
| TypeError
| KeyError
| OSError (msg : string)
| TemplateError (msg : string)
| SystemExit (code : Z).

Inductive outcome (A : Type) : Type :=
| Ret (a : A)
| Raise (e : exn).

Arguments Ret {A} a.
Arguments Raise {A} e.

Definition obind {A B : Type} (x : outcome A) (k : A -> outcome B) : outcome B :=
  match x with
  | Ret a => k a
  | Raise e => Raise e
  end.

Declare Scope outcome_scope.
Delimit Scope outcome_scope with outcome.
Notation "'let?' x ':=' e 'in' k" := (obind e (fun x => k))
  (at level 10, x name, e at level 100, k at level 200)
  : outcome_scope.
Open Scope outcome_scope.

(** ** Python [str] methods used by the script *)

Module PyStr.

Definition char (c : ascii) : string := String c EmptyString.

(** [s.replace(old, new)] scans left to right and replaces the
    non-overlapping occurrences of [old]; [skip] counts the characters of
    a matched occurrence that are still to be passed over. *)
Fixpoint replace_from (old new : string) (skip : nat) (s : string) : string :=
  match s with
  | EmptyString => EmptyString
  | String c rest =>
      match skip with
      | S k => replace_from old new k rest
      | O =>
          if prefix old s
          then new ++ replace_from old new (pred (String.length old)) rest
          else String c (replace_from old new 0 rest)
      end
  end.

(** With an empty [old], Python puts [new] before every character and at
    the end. *)
Fixpoint interleave (new s : string) : string :=
  match s with
  | EmptyString => new
  | String c rest => new ++ String c (interleave new rest)
  end.

Definition replace (old new s : string) : string :=
  match old with
  | EmptyString => interleave new s
  | String _ _ => replace_from old new 0 s
  end.

(** [s.split(sep)] for a non-empty separator (Python raises [ValueError]
    on an empty one; the script only ever passes ["-"]). *)
Fixpoint split_from (sep : string) (skip : nat) (s : string) : list string :=
  match s with
  | EmptyString => [EmptyString]
  | String c rest =>
      match skip with
      | S k => split_from sep k rest
      | O =>
          if prefix sep s
          then EmptyString :: split_from sep (pred (String.length sep)) rest
          else
            match split_from sep 0 rest with
            | h :: t => String c h :: t
            | [] => [char c]
            end
      end
  end.

Definition split (sep s : string) : list string := split_from sep 0 s.

(** [sep.join(items)] on a list of strings. *)
Definition join (sep : string) (items : list string) : string :=
  String.concat sep items.

(** The characters [int()] drops around a number, for code points below
    256: TAB..CR, space, NEL and the no-break space. *)
Definition is_space (c : ascii) : bool :=
  let n := nat_of_ascii c in
  (((9 <=? n) && (n <=? 13)) || (n =? 32) || (n =? 133) || (n =? 160))%nat.

Fixpoint lstrip (s : string) : string :=
  match s with
  | EmptyString => EmptyString
  | String c rest => if is_space c then lstrip rest else s
  end.

Fixpoint rstrip (s : string) : string :=
  match s with
  | EmptyString => EmptyString
  | String c rest =>
      match rstrip rest with
      | EmptyString => if is_space c then EmptyString else char c
      | r => String c r
      end
  end.

Definition strip (s : string) : string := rstrip (lstrip s).

Definition digit_value (c : ascii) : option Z :=
  let n := nat_of_ascii c in
  if ((48 <=? n) && (n <=? 57))%nat then Some (Z.of_nat (n - 48)) else None.

(** The digits of an integer literal: decimal digits, single underscores
    allowed between two digits.  [seen] tells whether the previous
    character was a digit, [count] is the number of digits read. *)
Fixpoint parse_digits (seen : bool) (acc : Z) (count : nat) (s : string)
  : option (Z * nat) :=
  match s with
  | EmptyString => if seen then Some (acc, count) else None
  | String c rest =>
      match digit_value c with
      | Some d => parse_digits true (10 * acc + d) (S count) rest
      | None =>
          if Ascii.eqb c "_"%char && seen
          then parse_digits false acc count rest
          else None
      end
  end.

(** [sys.get_int_max_str_digits()]: the interpreter refuses to convert a
    decimal text of more digits to an integer, and an integer of more
    digits to a text. *)
Definition int_max_str_digits : nat := 4300.

(** [int(s)] in base 10: surrounding whitespace is dropped, one sign is
    allowed, and the digits (underscores apart) are at most
    [int_max_str_digits]. *)
Definition int_body (sign : Z) (digits : string) : outcome Z :=
  match parse_digits false 0 0 digits with
  | Some (v, count) =>
      if (count <=? int_max_str_digits)%nat then Ret (sign * v)%Z
      else Raise ValueError
  | None => Raise ValueError
  end.

Definition int (s : string) : outcome Z :=
  match strip s with
  | String "+" digits => int_body 1 digits
  | String "-" digits => int_body (-1) digits
  | digits => int_body 1 digits
  end.

(** The decimal text of an integer [n]. *)
Definition of_int (n : Z) : string := NilEmpty.string_of_int (Z.to_int n).

(** [str(n)], also as an f-string field: the decimal text, refused with
    [ValueError] when it has more than [int_max_str_digits] digits. *)
Definition str_int (n : Z) : outcome string :=
  let text := of_int n in
  let digits := match text with String "-" d => d | d => d end in
  if (String.length digits <=? int_max_str_digits)%nat then Ret text
  else Raise ValueError.

(** [sub in s] *)
Fixpoint contains (sub s : string) : bool :=
  prefix sub s ||
  match s with
  | EmptyString => false
  | String _ rest => contains sub rest
  end.

Definition hex_digit (n : nat) : ascii :=
  ascii_of_nat (if (n <? 10)%nat then 48 + n else 87 + n).

Definition is_printable (c : ascii) : bool :=
  let n := nat_of_ascii c in
  (((32 <=? n) && (n <=? 126)) || ((161 <=? n) && negb (n =? 173)))%nat.

(** [repr(s)]: single quotes unless the text has a single quote and no
    double quote; the quote, the backslash and unprintable characters are
    escaped. *)
Definition repr_char (quote c : ascii) : string :=
  if Ascii.eqb c quote || Ascii.eqb c "\"%char then String "\"%char (char c)
  else if Ascii.eqb c "009"%char then "\t"
  else if Ascii.eqb c "010"%char then "\n"
  else if Ascii.eqb c "013"%char then "\r"
  else if is_printable c then char c
  else
    let n := nat_of_ascii c in
    String "\"%char (String "x"%char (String (hex_digit (n / 16)) (char (hex_digit (n mod 16))))).

Fixpoint repr_body (quote : ascii) (s : string) : string :=
  match s with
  | EmptyString => EmptyString
  | String c rest => repr_char quote c ++ repr_body quote rest
  end.

Definition repr (s : string) : string :=
  let quote : ascii :=
    if contains "'" s && negb (contains (char "034"%char) s)
    then "034"%char else "'"%char in
  String quote (repr_body quote s ++ char quote).

End PyStr.

(** ** The [latex_escape] filter *)

Definition replacements : list (string * string) :=
  [ ("\", "\textbackslash{}");
    ("&", "\&");
    ("%", "\%");
    ("$", "\$");
    ("#", "\#");
    ("_", "\_");
    ("{", "\{");
    ("}", "\}");
    ("~", "\textasciitilde{}");
    ("^", "\textasciicircum{}");
    ("<", "\textless{}");
    (">", "\textgreater{}") ].

(** [text] is [None] for an absent value; [not text] holds for [None] and
    for the empty string. *)
Definition latex_escape (text : option string) : string :=
  match text with
  | None | Some EmptyString => EmptyString
  | Some t =>
      fold_left
        (fun result '(char, escaped) => PyStr.replace char escaped result)
        replacements t
  end.

(** ** The [github_username] and [linkedin_username] filters

    Both search for a literal text followed by the group [([^/]+)]: the
    leftmost place where the literal is followed by at least one character
    other than ["/"], the group being the longest run of such characters. *)

(** [s] without its prefix [lit], when [lit] is one. *)
Fixpoint after_literal (lit s : string) : option string :=
  match lit with
  | EmptyString => Some s
  | String a lit' =>
      match s with
      | EmptyString => None
      | String b s' => if Ascii.eqb a b then after_literal lit' s' else None
      end
  end.

(** The longest prefix of [s] without the character [stop]. *)
Fixpoint run_before (stop : ascii) (s : string) : string :=
  match s with
  | EmptyString => EmptyString
  | String c rest =>
      if Ascii.eqb c stop then EmptyString else String c (run_before stop rest)
  end.

(** [re.search(lit + "([^/]+)", s)], giving [match.group(1)]; [lit] is a
    pattern without operators. *)
Fixpoint search_segment (lit s : string) : option string :=
  let here :=
    match after_literal lit s with
    | Some tail =>
        match run_before "/" tail with
        | EmptyString => None
        | group => Some group
        end
    | None => None
    end in
  match here with
  | Some group => Some group
  | None =>
      match s with
      | EmptyString => None
      | String _ rest => search_segment lit rest
      end
  end.

Definition github_username (url : option string) : string :=
  match url with
  | None | Some EmptyString => EmptyString
  | Some u =>
      match search_segment "github.com/" u with
      | Some group => group
      | None => u
      end
  end.

Definition linkedin_username (url : option string) : string :=
  match url with
  | None | Some EmptyString => EmptyString
  | Some u =>
      match search_segment "linkedin.com/in/" u with
      | Some group => group
      | None => u
      end
  end.

(** ** Python values

    [json.load] produces [None], booleans, integers, floats, strings, lists
    and dictionaries.  Floats stay abstract: the script only tests them for
    truth and prints them.  Integers are those [json.load] can produce,
    of at most [PyStr.int_max_str_digits] digits, so that printing one
    never fails. *)

Class PyFloat (F : Type) : Type := {
  float_is_zero : F -> bool;
  float_repr : F -> string
}.

Inductive value (F : Type) : Type :=
| VNone
| VBool (b : bool)
| VInt (z : Z)
| VFloat (f : F)
| VStr (s : string)
| VList (items : list (value F))
| VDict (fields : list (string * value F)).

Arguments VNone {F}.
Arguments VBool {F} b.
Arguments VInt {F} z.
Arguments VFloat {F} f.
Arguments VStr {F} s.
Arguments VList {F} items.
Arguments VDict {F} fields.

(** A dictionary with string keys, in insertion order; every key occurs
    once. *)
Definition dict (F : Type) : Type := list (string * value F).

Section Values.

Context {F : Type} `{PyFloat F}.

Fixpoint dict_get (d : dict F) (key : string) : option (value F) :=
  match d with
  | [] => None
  | (k, v) :: rest => if String.eqb k key then Some v else dict_get rest key
  end.

Definition dict_has (d : dict F) (key : string) : bool :=
  match dict_get d key with Some _ => true | None => false end.

(** [d[key] = v]: an existing key keeps its place. *)
Fixpoint dict_set (d : dict F) (key : string) (v : value F) : dict F :=
  match d with
  | [] => [(key, v)]
  | (k, old) :: rest =>
      if String.eqb k key then (k, v) :: rest
      else (k, old) :: dict_set rest key v
  end.

Definition dict_keys (d : dict F) : list string := map fst d.

(** Truth value of an object ([bool(v)]). *)
Definition truthy (v : value F) : bool :=
  match v with
  | VNone => false
  | VBool b => b
  | VInt z => negb (z =? 0)%Z
  | VFloat f => negb (float_is_zero f)
  | VStr s => negb (String.eqb s EmptyString)
  | VList items => match items with [] => false | _ :: _ => true end
  | VDict fields => match fields with [] => false | _ :: _ => true end
  end.

(** [repr(v)] *)
Fixpoint py_repr (v : value F) : string :=
  match v with
  | VNone => "None"
  | VBool true => "True"
  | VBool false => "False"
  | VInt z => PyStr.of_int z
  | VFloat f => float_repr f
  | VStr s => PyStr.repr s
  | VList items => "[" ++ PyStr.join ", " (map py_repr items) ++ "]"
  | VDict fields =>
      "{" ++ PyStr.join ", "
               (map (fun kv => PyStr.repr (fst kv) ++ ": " ++ py_repr (snd kv)) fields)
          ++ "}"
  end.

(** [str(v)] *)
Definition py_str (v : value F) : string :=
  match v with
  | VStr s => s
  | _ => py_repr v
  end.

(** [key in container] for a string [key]. *)
Definition py_in (key : string) (container : value F) : outcome bool :=
  match container with
  | VDict fields => Ret (dict_has fields key)
  | VList items =>
      Ret (existsb (fun x => match x with VStr s => String.eqb s key | _ => false end) items)
  | VStr s => Ret (PyStr.contains key s)
  | _ => Raise TypeError
  end.

(** [container[key]] for a string [key]. *)
Definition py_getitem (container : value F) (key : string) : outcome (value F) :=
  match container with
  | VDict fields =>
      match dict_get fields key with
      | Some v => Ret v
      | None => Raise KeyError
      end
  | _ => Raise TypeError
  end.

(** The elements a [for] loop over [v] visits. *)
Definition py_iter (v : value F) : outcome (list (value F)) :=
  match v with
  | VList items => Ret items
  | VDict fields => Ret (map (fun kv => VStr (fst kv)) fields)
  | VStr s => Ret (map (fun c => VStr (PyStr.char c)) (list_ascii_of_string s))
  | _ => Raise TypeError
  end.

(** [sep.join(items)]: every item has to be a string. *)
Fixpoint as_strings (items : list (value F)) : outcome (list string) :=
  match items with
  | [] => Ret []
  | VStr s :: rest => let? tail := as_strings rest in Ret (s :: tail)
  | _ :: _ => Raise TypeError
  end.

Definition py_join (sep : string) (items : list (value F)) : outcome string :=
  let? strings := as_strings items in Ret (PyStr.join sep strings).

(** [items[i]] on a list, with Python's negative indices. *)
Definition list_index {A : Type} (items : list A) (i : Z) : outcome A :=
  let n := Z.of_nat (List.length items) in
  let j := if (i <? 0)%Z then (i + n)%Z else i in
  if (j <? 0)%Z then Raise IndexError
  else
    match nth_error items (Z.to_nat j) with
    | Some x => Ret x
    | None => Raise IndexError
    end.

(** ** The [join_tech] filter *)

(** What the loop appends to [names] for one entry. *)
Definition tech_name (tech : value F) : value F :=
  match tech with
  | VDict fields =>
      match dict_get fields "name" with
      | Some v => v
      | None => VStr EmptyString
      end
  | _ => VStr (py_str tech)
  end.

Definition join_tech (technologies : value F) : outcome string :=
  if negb (truthy technologies) then Ret EmptyString
  else
    let? techs := py_iter technologies in
    let names := map tech_name techs in
    py_join ", " (filter truthy names).

End Values.

(** ** The [format_duration] filter *)

Definition months : list string :=
  [ "Jan"; "Feb"; "Mar"; "Apr"; "May"; "Jun";
    "Jul"; "Aug"; "Sep"; "Oct"; "Nov"; "Dec" ].

Definition format_date (date_str : string) : outcome string :=
  let parts := PyStr.split "-" date_str in
  let? year_text := list_index parts 0 in
  let? year := PyStr.int year_text in
  let? month_text := list_index parts 1 in
  let? month := PyStr.int month_text in
  let? name := list_index months (month - 1) in
  let? year_text := PyStr.str_int year in
  Ret (name ++ " " ++ year_text).

(** [end_date] is [None] when the argument is absent; an empty string is
    falsy as well. *)
Definition format_duration (start_date : string) (end_date : option string)
  : outcome string :=
  let? start := format_date start_date in
  let? finish :=
    match end_date with
    | None | Some EmptyString => Ret "Present"
    | Some e => format_date e
    end in
  Ret (start ++ " -- " ++ finish).

(** ** Paths ([pathlib.PurePosixPath])

    A path is its root (empty, ["/"] or ["//"]) and its components. *)

Record path : Type := { root : string; parts : list string }.

Definition Path (s : string) : path :=
  {| root :=
       if prefix "///" s then "/"
       else if prefix "//" s then "//"
       else if prefix "/" s then "/"
       else EmptyString;
     parts :=
       filter (fun part => negb (String.eqb part EmptyString || String.eqb part "."))
              (PyStr.split "/" s) |}.

(** [p / s] *)
Definition joinpath (p : path) (s : string) : path :=
  let q := Path s in
  match root q with
  | EmptyString => {| root := root p; parts := (parts p ++ parts q)%list |}
  | _ => q
  end.

Definition path_name (p : path) : string := last (parts p) EmptyString.

Definition path_parent (p : path) : path :=
  {| root := root p; parts := removelast (parts p) |}.

Definition path_str (p : path) : string :=
  match parts p with
  | [] => match root p with EmptyString => "." | r => r end
  | _ :: _ => root p ++ PyStr.join "/" (parts p)
  end.

Definition path_eqb (p q : path) : bool :=
  String.eqb (root p) (root q)
  && (if list_eq_dec string_dec (parts p) (parts q) then true else false).

(** ** The world a run sees: files and the console *)

Inductive node : Type :=
| File (content : string)
| Directory.

Record world : Type := {
  files : path -> option node;
  console : list string
}.

Definition M (A : Type) : Type := world -> outcome A * world.

Definition ret {A : Type} (a : A) : M A := fun w => (Ret a, w).

Definition raise {A : Type} (e : exn) : M A := fun w => (Raise e, w).

Definition bind {A B : Type} (m : M A) (k : A -> M B) : M B :=
  fun w =>
    match m w with
    | (Ret a, w') => k a w'
    | (Raise e, w') => (Raise e, w')
    end.

Definition lift {A : Type} (x : outcome A) : M A := fun w => (x, w).

Declare Scope run_scope.
Delimit Scope run_scope with run.
Notation "x <- m ;; k" := (bind m (fun x => k))
  (at level 61, m at next level, right associativity) : run_scope.
Notation "m ;; k" := (bind m (fun _ => k))
  (at level 61, right associativity) : run_scope.

(** The world after one more line on the console. *)
Definition with_line (w : world) (line : string) : world :=
  {| files := files w; console := (console w ++ [line])%list |}.

Definition print (line : string) : M unit := fun w => (Ret tt, with_line w line).

Definition path_exists (p : path) : M bool :=
  fun w => (Ret (match files w p with Some _ => true | None => false end), w).

Definition write_file (p : path) (text : string) (fs : path -> option node)
  : path -> option node :=
  fun q => if path_eqb q p then Some (File text) else fs q.

(** What the operating system makes of writing a text to a path that can
    be opened: the write completes; [open] itself is refused (no
    permission, read-only medium); or the file is opened, hence created or
    emptied, and the write does not complete, with an [OSError] (no space
    left) or a [UnicodeEncodeError], which is a [ValueError].  [remains]
    is what the file holds after a write that did not complete. *)
Inductive write_fate : Type :=
| Completes
| OpenFails (msg : string)
| WriteFails (msg : string) (remains : string)
| EncodeFails (remains : string).

(** [with open(p, "w") as f: f.write(text)]: [open] fails when [p] is a
    directory or its parent is not one, and when the system refuses it;
    once it has succeeded the old content is gone. *)
Definition open_write (fate : write_fate) (p : path) (text : string) : M unit :=
  fun w =>
    match files w p, files w (path_parent p) with
    | Some Directory, _ =>
        (Raise (OSError ("[Errno 21] Is a directory: " ++ PyStr.repr (path_str p))), w)
    | _, Some Directory =>
        match fate with
        | Completes =>
            (Ret tt, {| files := write_file p text (files w); console := console w |})
        | OpenFails msg => (Raise (OSError msg), w)
        | WriteFails msg remains =>
            (Raise (OSError msg),
             {| files := write_file p remains (files w); console := console w |})
        | EncodeFails remains =>
            (Raise ValueError,
             {| files := write_file p remains (files w); console := console w |})
        end
    | _, _ =>
        (Raise (OSError ("[Errno 2] No such file or directory: " ++ PyStr.repr (path_str p))), w)
    end.

(** ** What the script takes from its surroundings

    The location of the script, [json.load], the Jinja2 engine and the
    operating system's answer to a write. *)

Class Platform (F : Type) : Type := {
  PROJECT_ROOT : path;
  (** the parsed document, or the text of the [JSONDecodeError] *)
  json_loads : string -> value F + string;
  jinja_template : Type;
  (** [env.get_template(name)] for an environment loading from a directory *)
  jinja_get_template : (path -> option node) -> path -> string -> outcome jinja_template;
  (** [template.render] applied to the context *)
  jinja_render : jinja_template -> dict F -> outcome string;
  (** the fate of writing a text to a path, given the files as they are *)
  os_write : (path -> option node) -> path -> string -> write_fate
}.

Record cli_args : Type := {
  arg_template : option string;
  arg_output : option string;
  arg_data_dir : option string
}.

Section Pipeline.

Context {F : Type} `{PyFloat F} `{Platform F}.
Open Scope run_scope.

Definition DATA_DIR : path := joinpath PROJECT_ROOT "data".
Definition TEMPLATE_DIR : path := joinpath PROJECT_ROOT "templates".
Definition TEMPLATE_FILE : string := "resume.tex.j2".
Definition OUTPUT_FILE : string := "resume.tex".

Definition load_json_file (filepath : path) : M (value F) :=
  fun w =>
    match files w filepath with
    | None =>
        (print ("Warning: Config file not found: " ++ path_str filepath) ;;
         ret (VDict [])) w
    | Some Directory =>
        (Raise (OSError ("[Errno 21] Is a directory: " ++ PyStr.repr (path_str filepath))), w)
    | Some (File text) =>
        match json_loads text with
        | inl document => (Ret document, w)
        | inr e =>
            (print ("Error: Invalid JSON in " ++ path_str filepath ++ ": " ++ e) ;;
             raise (SystemExit 1)) w
        end
    end.

Definition config_files : list (string * string) :=
  [ ("profile", "profile.json");
    ("experience_data", "experience.json");
    ("projects_data", "projects.json");
    ("skills_data", "skills.json");
    ("education_data", "education.json");
    ("contact", "contact.json");
    ("seo", "seo.json") ].

(** The loop over [config_files]. *)
Fixpoint load_config_files (data_dir : path) (entries : list (string * string))
         (context : dict F) : M (dict F) :=
  match entries with
  | [] => ret context
  | (key, filename) :: rest =>
      let filepath := joinpath data_dir filename in
      present <- path_exists filepath ;;
      if present
      then document <- load_json_file filepath ;;
           load_config_files data_dir rest (dict_set context key document)
      else load_config_files data_dir rest context
  end.

(** [if source in context and subkey in context[source]:
       context[target] = context[source][subkey]] *)
Definition promote (source subkey target : string) (context : dict F)
  : outcome (dict F) :=
  match dict_get context source with
  | None => Ret context
  | Some document =>
      let? found := py_in subkey document in
      if found
      then let? v := py_getitem document subkey in
           Ret (dict_set context target v)
      else Ret context
  end.

Definition load_all_configs (data_dir : path) : M (dict F) :=
  context <- load_config_files data_dir config_files [] ;;
  context <- lift (promote "experience_data" "experience" "experience" context) ;;
  context <- lift (promote "projects_data" "projects" "projects" context) ;;
  context <- lift (promote "skills_data" "categories" "skills" context) ;;
  context <- lift (promote "education_data" "education" "education" context) ;;
  ret context.

Definition required_keys : list string := ["profile"; "experience"; "education"].

(** [[k for k in required_keys if k not in context or not context[k]]] *)
Definition missing_keys (context : dict F) : list string :=
  filter (fun k =>
            match dict_get context k with
            | None => true
            | Some v => negb (truthy v)
            end) required_keys.

Definition render_resume (template_dir : path) (template_file output_file : string)
           (data_dir : path) : M bool :=
  print ("Loading config files from: " ++ path_str data_dir) ;;
  context <- load_all_configs data_dir ;;
  let missing := missing_keys context in
  match missing with
  | _ :: _ =>
      print ("Error: Missing required config data: " ++ PyStr.join ", " missing) ;;
      ret false
  | [] =>
      print ("Loaded configs: " ++ py_repr (F := F) (VList (map VStr (dict_keys context)))) ;;
      print ("Loading template: " ++ path_str (joinpath template_dir template_file)) ;;
      fun w =>
        match jinja_get_template (files w) template_dir template_file with
        | Raise (TemplateError e) =>
            (print ("Error loading template: " ++ e) ;; ret false) w
        | Raise e => (Raise e, w)
        | Ret template =>
            match jinja_render template context with
            | Raise (TemplateError e) =>
                (print ("Error rendering template: " ++ e) ;; ret false) w
            | Raise e => (Raise e, w)
            | Ret rendered =>
                let output_path := joinpath PROJECT_ROOT output_file in
                (print ("Writing output to: " ++ path_str output_path) ;;
                 fun w1 =>
                   match open_write (os_write (files w1) output_path rendered)
                                    output_path rendered w1 with
                   | (Raise (OSError e), w2) =>
                       (print ("Error writing output file: " ++ e) ;; ret false) w2
                   | (Raise e, w2) => (Raise e, w2)
                   | (Ret _, w2) =>
                       (print "Resume template rendered successfully!" ;; ret true) w2
                   end) w
            end
        end
  end.

(** [argparse]: a flag that was not given is [None] and takes its
    default. *)
Definition template_arg (args : cli_args) : string :=
  match arg_template args with
  | Some s => s
  | None => path_str (joinpath TEMPLATE_DIR TEMPLATE_FILE)
  end.

Definition output_arg (args : cli_args) : string :=
  match arg_output args with
  | Some s => s
  | None => path_str (joinpath PROJECT_ROOT OUTPUT_FILE)
  end.

Definition data_dir_arg (args : cli_args) : string :=
  match arg_data_dir args with
  | Some s => s
  | None => path_str DATA_DIR
  end.

Definition main (args : cli_args) : M unit :=
  let template_path := Path (template_arg args) in
  let output_path := Path (output_arg args) in
  let data_dir := Path (data_dir_arg args) in
  success <- render_resume (path_parent template_path) (path_name template_path)
                           (path_name output_path) data_dir ;;
  raise (SystemExit (if success then 0 else 1)).

(** The status the process ends with: the code of [SystemExit], 1 for
    any other exception that reaches the top, 0 at a normal end. *)
Definition exit_status {A : Type} (result : outcome A) : Z :=
  match result with
  | Ret _ => 0
  | Raise (SystemExit code) => code
  | Raise _ => 1
  end.

Definition run (args : cli_args) (w : world) : Z * world :=
  let (result, w') := main args w in (exit_status result, w').

End Pipeline.

(** ** A sample platform for the worked examples

    Two floats, a parser that knows a handful of documents, a disk on which
    every write completes, and an engine
    that renders a template without tags to its own text, refuses to load
    one with an opening tag and fails to render one holding the word
    FAIL. *)

Module Sample.

Inductive flt : Type := Zero | Half.

#[global] Instance flt_float : PyFloat flt := {
  float_is_zero f := match f with Zero => true | Half => false end;
  float_repr f := match f with Zero => "0.0" | Half => "0.5" end
}.

Definition dq : string := PyStr.char "034"%char.

(** [{"k": [...]}]-shaped texts are written with [dq] for the quotes. *)
Definition profile_text : string :=
  "{" ++ dq ++ "name" ++ dq ++ ": " ++ dq ++ "Ada" ++ dq ++ "}".
Definition experience_text : string :=
  "{" ++ dq ++ "experience" ++ dq ++ ": [" ++ dq ++ "Acme" ++ dq ++ "]}".
Definition education_text : string :=
  "{" ++ dq ++ "education" ++ dq ++ ": [" ++ dq ++ "MIT" ++ dq ++ "]}".
Definition empty_education_text : string :=
  "{" ++ dq ++ "education" ++ dq ++ ": []}".
Definition list_text : string := "[" ++ dq ++ "experience" ++ dq ++ "]".

Definition documents : list (string * value flt) :=
  [ (profile_text, VDict [("name", VStr "Ada")]);
    (experience_text, VDict [("experience", VList [VStr "Acme"])]);
    (education_text, VDict [("education", VList [VStr "MIT"])]);
    (empty_education_text, VDict [("education", VList [])]);
    (list_text, VList [VStr "experience"]) ].

Fixpoint lookup {A : Type} (table : list (string * A)) (key : string) : option A :=
  match table with
  | [] => None
  | (k, v) :: rest => if String.eqb k key then Some v else lookup rest key
  end.

Definition loads (text : string) : value flt + string :=
  match lookup documents text with
  | Some v => inl v
  | None => inr "Expecting value: line 1 column 1 (char 0)"
  end.

Definition get_template (fs : path -> option node) (dir : path) (name : string)
  : outcome string :=
  match fs (joinpath dir name) with
  | Some (File text) =>
      if PyStr.contains "((" text
      then Raise (TemplateError "unexpected end of template")
      else Ret text
  | _ => Raise (TemplateError name)
  end.

Definition render_text (text : string) (context : dict flt) : outcome string :=
  if PyStr.contains "FAIL" text
  then Raise (TemplateError "render failed")
  else Ret text.

#[global] Instance platform : Platform flt := {
  PROJECT_ROOT := Path "/srv/resume";
  json_loads := loads;
  jinja_template := string;
  jinja_get_template := get_template;
  jinja_render := render_text;
  os_write := fun _ _ _ => Completes
}.

Fixpoint tree (entries : list (string * node)) : path -> option node :=
  match entries with
  | [] => fun _ => None
  | (name, n) :: rest =>
      fun q => if path_eqb q (Path name) then Some n else tree rest q
  end.

Definition template_text : string := "\documentclass{article}".

(** A checkout with the three required documents and the template. *)
Definition checkout : list (string * node) :=
  [ ("/srv/resume", Directory);
    ("/srv/resume/data", Directory);
    ("/srv/resume/templates", Directory);
    ("/srv/resume/templates/resume.tex.j2", File template_text);
    ("/srv/resume/data/profile.json", File profile_text);
    ("/srv/resume/data/experience.json", File experience_text);
    ("/srv/resume/data/education.json", File education_text);
    ("/tmp", Directory) ].

(** The same checkout before [education.json] was written. *)
Definition checkout_without_education : list (string * node) :=
  [ ("/srv/resume", Directory);
    ("/srv/resume/data", Directory);
    ("/srv/resume/templates", Directory);
    ("/srv/resume/templates/resume.tex.j2", File template_text);
    ("/srv/resume/data/profile.json", File profile_text);
    ("/srv/resume/data/experience.json", File experience_text) ].

Definition start (entries : list (string * node)) : world :=
  {| files := tree entries; console := [] |}.

Definition no_flags : cli_args :=
  {| arg_template := None; arg_output := None; arg_data_dir := None |}.

End Sample.

(** ** Vocabulary of the statements *)

(** The sequence the escape table designates for a character, and the one
    [latex_escape] is shown below to emit. *)
Definition designated (c : ascii) : string :=
  match c with
  | "\"%char => "\textbackslash{}"
  | "&"%char => "\&"
  | "%"%char => "\%"
  | "$"%char => "\$"
  | "#"%char => "\#"
  | "_"%char => "\_"
  | "{"%char => "\{"
  | "}"%char => "\}"
  | "~"%char => "\textasciitilde{}"
  | "^"%char => "\textasciicircum{}"
  | "<"%char => "\textless{}"
  | ">"%char => "\textgreater{}"
  | _ => PyStr.char c
  end.

Definition emitted (c : ascii) : string :=
  match c with
  | "\"%char => "\textbackslash\{\}"
  | _ => designated c
  end.

Fixpoint expand (f : ascii -> string) (s : string) : string :=
  match s with
  | EmptyString => EmptyString
  | String c rest => f c ++ expand f rest
  end.

(** Decimal digits and [YYYY-MM] texts. *)
Definition digit_char (d : nat) : ascii := ascii_of_nat (48 + d).

Fixpoint digits_string (ds : list nat) : string :=
  match ds with
  | [] => EmptyString
  | d :: rest => String (digit_char d) (digits_string rest)
  end.

Fixpoint digits_value (acc : Z) (ds : list nat) : Z :=
  match ds with
  | [] => acc
  | d :: rest => digits_value (10 * acc + Z.of_nat d) rest
  end.

(** The four digits of a year and the two digits of a month. *)
Definition yyyy (y : Z) : list nat :=
  map Z.to_nat [(y / 1000) mod 10; (y / 100) mod 10; (y / 10) mod 10; y mod 10]%Z.

Definition mm (m : Z) : list nat := map Z.to_nat [(m / 10) mod 10; m mod 10]%Z.

Definition yyyy_mm (y m : Z) : string :=
  digits_string (yyyy y) ++ "-" ++ digits_string (mm m).

Definition month_abbrev (m : Z) : string :=
  match m with
  | 1 => "Jan" | 2 => "Feb" | 3 => "Mar" | 4 => "Apr"
  | 5 => "May" | 6 => "Jun" | 7 => "Jul" | 8 => "Aug"
  | 9 => "Sep" | 10 => "Oct" | 11 => "Nov" | 12 => "Dec"
  | _ => EmptyString
  end%Z.

Definition date_label (y m : Z) : string :=
  month_abbrev m ++ " " ++ PyStr.of_int y.

(** Technology lists. *)
Section TechnologyVocabulary.

Context {F : Type} `{PyFloat F}.

Definition nonempty (s : string) : option string :=
  match s with
  | EmptyString => None
  | String _ _ => Some s
  end.

(** The name an entry contributes to the joined text, if any: the [name]
    of a record, a plain string itself, the printed form of anything
    else. *)
Definition entry_name (tech : value F) : option string :=
  match tech with
  | VDict fields =>
      match dict_get fields "name" with
      | Some (VStr n) => nonempty n
      | _ => None
      end
  | VStr s => nonempty s
  | other => nonempty (py_str other)
  end.

Fixpoint collect {A B : Type} (f : A -> option B) (items : list A) : list B :=
  match items with
  | [] => []
  | x :: rest =>
      match f x with
      | Some y => y :: collect f rest
      | None => collect f rest
      end
  end.

(** A record is well named when its [name] is absent, a string, or a
    falsy value such as [None]. *)
Definition well_named (tech : value F) : bool :=
  match tech with
  | VDict fields =>
      match dict_get fields "name" with
      | None | Some (VStr _) => true
      | Some v => negb (truthy v)
      end
  | _ => true
  end.

Definition is_record (tech : value F) : bool :=
  match tech with VDict _ => true | _ => false end.

Definition is_string (tech : value F) : bool :=
  match tech with VStr _ => true | _ => false end.

End TechnologyVocabulary.

(** The promotion rules: source key, subkey, promoted key. *)
Definition promotions : list (string * string * string) :=
  [ ("experience_data", "experience", "experience");
    ("projects_data", "projects", "projects");
    ("skills_data", "categories", "skills");
    ("education_data", "education", "education") ].

(** Texts without a slash. *)
Fixpoint slash_free (s : string) : bool :=
  match s with
  | EmptyString => true
  | String c rest => negb (Ascii.eqb c "/") && slash_free rest
  end.

(** What may follow a user name in a URL: nothing, or a slash and more. *)
Definition ends_segment (rest : string) : bool :=
  match rest with
  | EmptyString => true
  | String c _ => Ascii.eqb c "/"
  end.

(** The characters [latex_escape] has a rule for. *)
Definition is_special (c : ascii) : bool :=
  existsb (fun rule => String.eqb (fst rule) (PyStr.char c)) replacements.

Fixpoint has_special (s : string) : bool :=
  match s with
  | EmptyString => false
  | String c rest => is_special c || has_special rest
  end.

(** Whether [c] stands somewhere in [s] without a backslash right before
    it; [guarded] tells whether the character before [s] is a backslash. *)
Fixpoint unguarded (c : ascii) (guarded : bool) (s : string) : bool :=
  match s with
  | EmptyString => false
  | String x rest =>
      (Ascii.eqb x c && negb guarded) || unguarded c (Ascii.eqb x "\") rest
  end.

(** Reading one character back from the front of an escaped text. *)
Definition unescape_head (s : string) : option (ascii * string) :=
  match s with
  | EmptyString => None
  | String "\" rest =>
      match after_literal "textbackslash\{\}" rest,
            after_literal "textasciitilde{}" rest,
            after_literal "textasciicircum{}" rest,
            after_literal "textless{}" rest,
            after_literal "textgreater{}" rest with
      | Some t, _, _, _, _ => Some ("\"%char, t)
      | _, Some t, _, _, _ => Some ("~"%char, t)
      | _, _, Some t, _, _ => Some ("^"%char, t)
      | _, _, _, Some t, _ => Some ("<"%char, t)
      | _, _, _, _, Some t => Some (">"%char, t)
      | _, _, _, _, _ =>
          match rest with
          | String c t => Some (c, t)
          | EmptyString => None
          end
      end
  | String c t => Some (c, t)
  end.

(** Values a [for] loop can run over. *)
Definition is_container {F : Type} (v : value F) : bool :=
  match v with
  | VStr _ | VList _ | VDict _ => true
  | _ => false
  end.

(** The component of a path as [pathlib] keeps it: not empty, not [.],
    without a slash; and the absolute paths made of such components. *)
Definition good_part (part : string) : bool :=
  negb (String.eqb part EmptyString || String.eqb part ".") && slash_free part.

Definition absolute_path (p : path) : bool :=
  String.eqb (root p) "/" && forallb good_part (parts p).

(** The sample platform with a parser that also knows the document
    [42]. *)
Definition loads_numbers (text : string) : value Sample.flt + string :=
  if String.eqb text "42" then inl (VInt 42) else Sample.loads text.

Definition platform_with_numbers : Platform Sample.flt :=
  {| PROJECT_ROOT := Path "/srv/resume";
     json_loads := loads_numbers;
     jinja_template := string;
     jinja_get_template := Sample.get_template;
     jinja_render := Sample.render_text;
     os_write := fun _ _ _ => Completes |}.

(** The sample platform on a full disk: a file can be opened, nothing can
    be written to it. *)
Definition platform_full_disk : Platform Sample.flt :=
  {| PROJECT_ROOT := Path "/srv/resume";
     json_loads := Sample.loads;
     jinja_template := string;
     jinja_get_template := Sample.get_template;
     jinja_render := Sample.render_text;
     os_write := fun _ _ _ =>
                   WriteFails "[Errno 28] No space left on device" EmptyString |}.

(** Technology entries that are a plain string or a record with a [name]
    field, whatever the field holds. *)
Definition string_or_named_record {F : Type} (tech : value F) : bool :=
  match tech with
  | VStr _ => true
  | VDict fields => dict_has fields "name"
  | _ => false
  end.

(** A run of digits as the library's decimal numbers have it. *)
Definition digit_uint (d : nat) (u : Decimal.uint) : Decimal.uint :=
  match d with
  | 0 => Decimal.D0 u | 1 => Decimal.D1 u | 2 => Decimal.D2 u | 3 => Decimal.D3 u
  | 4 => Decimal.D4 u | 5 => Decimal.D5 u | 6 => Decimal.D6 u | 7 => Decimal.D7 u
  | 8 => Decimal.D8 u | _ => Decimal.D9 u
  end%nat.

Fixpoint uint_of (ds : list nat) : Decimal.uint :=
  match ds with
  | [] => Decimal.Nil
  | d :: rest => digit_uint d (uint_of rest)
  end.

(** * Properties *)

(** ** [str.replace] with a one-character pattern *)

Lemma append_assoc (a b c : string) : (a ++ b) ++ c = a ++ (b ++ c).
Proof. induction a as [|x a IH]; simpl; [reflexivity | now rewrite IH]. Qed.

Lemma prefix_empty (s : string) : prefix EmptyString s = true.
Proof. destruct s; reflexivity. Qed.

Lemma replace_char_app (c : ascii) (new a b : string) :
  PyStr.replace (PyStr.char c) new (a ++ b)
  = PyStr.replace (PyStr.char c) new a ++ PyStr.replace (PyStr.char c) new b.
Proof.
  unfold PyStr.replace, PyStr.char.
  induction a as [|x a IH]; [reflexivity|].
  cbn [append PyStr.replace_from prefix String.length pred].
  destruct (ascii_dec c x) as [_|_].
  - rewrite !prefix_empty, IH. now rewrite append_assoc.
  - rewrite IH. reflexivity.
Qed.

Lemma latex_escape_fold (t : string) :
  latex_escape (Some t)
  = fold_left (fun result '(char, escaped) => PyStr.replace char escaped result)
              replacements t.
Proof. destruct t; reflexivity. Qed.

Lemma latex_escape_app (a b : string) :
  latex_escape (Some (a ++ b)) = latex_escape (Some a) ++ latex_escape (Some b).
Proof.
  rewrite !latex_escape_fold. unfold replacements. cbn [fold_left].
  change "\" with (PyStr.char "\"). change "&" with (PyStr.char "&").
  change "%" with (PyStr.char "%"). change "$" with (PyStr.char "$").
  change "#" with (PyStr.char "#"). change "_" with (PyStr.char "_").
  change "{" with (PyStr.char "{"). change "}" with (PyStr.char "}").
  change "~" with (PyStr.char "~"). change "^" with (PyStr.char "^").
  change "<" with (PyStr.char "<"). change ">" with (PyStr.char ">").
  now rewrite !replace_char_app.
Qed.

Lemma latex_escape_char (c : ascii) : latex_escape (Some (PyStr.char c)) = emitted c.
Proof.
  destruct c as [b0 b1 b2 b3 b4 b5 b6 b7].
  destruct b0, b1, b2, b3, b4, b5, b6, b7; vm_compute; reflexivity.
Qed.

(** What the chain of replacements does, character by character. *)
Lemma latex_escape_expand (s : string) : latex_escape (Some s) = expand emitted s.
Proof.
  induction s as [|c s IH]; [reflexivity|].
  change (String c s) with (PyStr.char c ++ s).
  rewrite latex_escape_app, latex_escape_char, IH. reflexivity.
Qed.

Lemma emitted_designated (c : ascii) : c <> "\"%char -> emitted c = designated c.
Proof.
  intros Hc. destruct c as [b0 b1 b2 b3 b4 b5 b6 b7].
  destruct b0, b1, b2, b3, b4, b5, b6, b7; try reflexivity.
  now elim Hc.
Qed.

(** C8: [latex_escape] maps ["50% & $5_{x}"] to ["50\% \& \$5\_\{x\}"], and
    an empty or absent text to the empty string. *)
Theorem latex_escape_sample_and_empty :
  latex_escape (Some "50% & $5_{x}") = "50\% \& \$5\_\{x\}"
  /\ latex_escape (Some EmptyString) = EmptyString
  /\ latex_escape None = EmptyString.
Proof. repeat split; reflexivity. Qed.

(** C1: the text emitted for a backslash does not survive the later
    substitutions: on the one-character input ["\"] the result is
    ["\textbackslash\{\}"], the braces of ["\textbackslash{}"] having been
    rewritten by the rules for the two braces. *)
Theorem latex_escape_backslash_rewritten :
  latex_escape (Some "\") = "\textbackslash\{\}"
  /\ latex_escape (Some "\") <> designated "\"%char.
Proof. split; [reflexivity | discriminate]. Qed.

(** ** Decimal digits *)

Ltac each_digit d :=
  do 10 (destruct d as [|d]; [try reflexivity; try discriminate|]); try lia.

Lemma digit_value_digit_char (d : nat) :
  (d < 10)%nat -> PyStr.digit_value (digit_char d) = Some (Z.of_nat d).
Proof. intros Hd. each_digit d. Qed.

Lemma is_space_digit_char (d : nat) :
  (d < 10)%nat -> PyStr.is_space (digit_char d) = false.
Proof. intros Hd. each_digit d. Qed.

Lemma prefix_dash_digit (d : nat) (s : string) :
  (d < 10)%nat -> prefix "-" (String (digit_char d) s) = false.
Proof. intros Hd. each_digit d. Qed.

Lemma split_digits_dash (ds : list nat) (t : string) :
  Forall (fun d => d < 10)%nat ds ->
  PyStr.split "-" (digits_string ds ++ String "-" t)
  = digits_string ds :: PyStr.split "-" t.
Proof.
  unfold PyStr.split. induction 1 as [|d ds Hd _ IH].
  - cbn. now rewrite prefix_empty.
  - cbn [digits_string append PyStr.split_from].
    rewrite (prefix_dash_digit d _ Hd), IH. reflexivity.
Qed.

Lemma split_digits_only (ds : list nat) :
  Forall (fun d => d < 10)%nat ds ->
  PyStr.split "-" (digits_string ds) = [digits_string ds].
Proof.
  unfold PyStr.split. induction 1 as [|d ds Hd _ IH]; [reflexivity|].
  cbn [digits_string PyStr.split_from].
  rewrite (prefix_dash_digit d _ Hd), IH. reflexivity.
Qed.

Lemma rstrip_digits (ds : list nat) :
  Forall (fun d => d < 10)%nat ds ->
  PyStr.rstrip (digits_string ds) = digits_string ds.
Proof.
  induction 1 as [|d ds Hd _ IH]; [reflexivity|].
  cbn [digits_string PyStr.rstrip]. rewrite IH.
  destruct (digits_string ds); [|reflexivity].
  now rewrite (is_space_digit_char d Hd).
Qed.

Lemma strip_digits (ds : list nat) :
  Forall (fun d => d < 10)%nat ds ->
  PyStr.strip (digits_string ds) = digits_string ds.
Proof.
  intros Hds. unfold PyStr.strip.
  destruct Hds as [|d ds Hd Hds]; [reflexivity|].
  cbn [digits_string PyStr.lstrip]. rewrite (is_space_digit_char d Hd).
  exact (rstrip_digits (d :: ds) (Forall_cons d Hd Hds)).
Qed.

Lemma parse_digits_digits (ds : list nat) :
  Forall (fun d => d < 10)%nat ds ->
  forall seen acc count,
    ds <> [] \/ seen = true ->
    PyStr.parse_digits seen acc count (digits_string ds)
    = Some (digits_value acc ds, (count + List.length ds)%nat).
Proof.
  induction 1 as [|d ds Hd _ IH]; intros seen acc count Hne.
  - destruct Hne as [Hne | ->]; [now elim Hne|].
    cbn. now rewrite Nat.add_0_r.
  - cbn [digits_string PyStr.parse_digits digits_value List.length].
    rewrite (digit_value_digit_char d Hd), IH by now right.
    now rewrite Nat.add_succ_r.
Qed.

(** [int] reads a run of digits as the number it writes. *)
Lemma int_digits (ds : list nat) :
  Forall (fun d => d < 10)%nat ds -> ds <> [] ->
  (List.length ds <= PyStr.int_max_str_digits)%nat ->
  PyStr.int (digits_string ds) = Ret (digits_value 0 ds).
Proof.
  intros Hds Hne Hlen. unfold PyStr.int. rewrite (strip_digits ds Hds).
  pose proof (parse_digits_digits ds Hds false 0%Z 0%nat (or_introl Hne)) as Hp.
  destruct ds as [|d ds]; [now elim Hne|].
  assert (Hd : (d < 10)%nat) by now inversion Hds.
  assert (Hsign :
    match String (digit_char d) (digits_string ds) with
    | String "+" digits => PyStr.int_body 1 digits
    | String "-" digits => PyStr.int_body (-1) digits
    | digits => PyStr.int_body 1 digits
    end = PyStr.int_body 1 (String (digit_char d) (digits_string ds))).
  { generalize (digits_string ds). intros rest. clear - Hd. each_digit d. }
  cbn [digits_string] in *. rewrite Hsign. unfold PyStr.int_body.
  rewrite Hp. apply Nat.leb_le in Hlen.
  change (0 + List.length (d :: ds))%nat with (List.length (d :: ds)).
  rewrite Hlen. f_equal. lia.
Qed.

(** ** [format_duration] *)

Lemma yyyy_digits (y : Z) : Forall (fun d => d < 10)%nat (yyyy y).
Proof.
  unfold yyyy. cbn [map].
  repeat (apply Forall_cons;
          [match goal with
           | |- (Z.to_nat (?a mod 10) < 10)%nat =>
               pose proof (Z.mod_pos_bound a 10 eq_refl); lia
           end|]).
  apply Forall_nil.
Qed.

Lemma mm_digits (m : Z) : Forall (fun d => d < 10)%nat (mm m).
Proof.
  unfold mm. cbn [map].
  repeat (apply Forall_cons;
          [match goal with
           | |- (Z.to_nat (?a mod 10) < 10)%nat =>
               pose proof (Z.mod_pos_bound a 10 eq_refl); lia
           end|]).
  apply Forall_nil.
Qed.

(** A property checked on every number below [n] holds below [n]. *)
Lemma below_by_cases (P : Z -> bool) (n : Z) :
  forallb P (map Z.of_nat (seq 0 (Z.to_nat n))) = true ->
  forall z, (0 <= z < n)%Z -> P z = true.
Proof.
  intros Hall z Hz. rewrite forallb_forall in Hall.
  apply Hall, in_map_iff. exists (Z.to_nat z). split; [lia|].
  apply in_seq. lia.
Qed.

Lemma yyyy_value (y : Z) : (0 <= y <= 9999)%Z -> digits_value 0 (yyyy y) = y.
Proof.
  intros Hy. apply Z.eqb_eq.
  apply (below_by_cases (fun k => digits_value 0 (yyyy k) =? k)%Z 10000);
    [vm_compute; reflexivity | lia].
Qed.

Lemma mm_value (m : Z) : (0 <= m <= 99)%Z -> digits_value 0 (mm m) = m.
Proof.
  intros Hm. apply Z.eqb_eq.
  apply (below_by_cases (fun k => digits_value 0 (mm k) =? k)%Z 100);
    [vm_compute; reflexivity | lia].
Qed.

Lemma year_text_four_digits (y : Z) :
  (1000 <= y <= 9999)%Z -> PyStr.of_int y = digits_string (yyyy y).
Proof.
  intros Hy. apply String.eqb_eq.
  assert (Hk : (y <? 1000)%Z || String.eqb (PyStr.of_int y) (digits_string (yyyy y)) = true).
  { apply (below_by_cases
             (fun k => (k <? 1000)%Z
                       || String.eqb (PyStr.of_int k) (digits_string (yyyy k)))
             10000); [vm_compute; reflexivity | lia]. }
  apply orb_true_iff in Hk as [Hk | Hk]; [|exact Hk].
  apply Z.ltb_lt in Hk. lia.
Qed.

Lemma yyyy_mm_short (y m : Z) :
  (List.length (yyyy y) <= PyStr.int_max_str_digits)%nat
  /\ (List.length (mm m) <= PyStr.int_max_str_digits)%nat.
Proof. split; apply Nat.leb_le; reflexivity. Qed.

(** A year of at most four digits is printed. *)
Lemma str_int_small (y : Z) :
  (0 <= y <= 9999)%Z -> PyStr.str_int y = Ret (PyStr.of_int y).
Proof.
  intros Hy.
  assert (Hk : match PyStr.str_int y with
               | Ret text => String.eqb text (PyStr.of_int y)
               | Raise _ => false
               end = true).
  { apply (below_by_cases
             (fun k => match PyStr.str_int k with
                       | Ret text => String.eqb text (PyStr.of_int k)
                       | Raise _ => false
                       end) 10000); [vm_compute; reflexivity | lia]. }
  destruct (PyStr.str_int y) as [text|e]; [|discriminate].
  apply String.eqb_eq in Hk. now subst text.
Qed.

(** The parts [format_date] reads off a [YYYY-MM] text. *)
Lemma format_date_parts (y m : Z) :
  (0 <= y <= 9999)%Z -> (0 <= m <= 99)%Z ->
  format_date (yyyy_mm y m)
  = (let? name := list_index months (m - 1) in
     Ret (name ++ " " ++ PyStr.of_int y)).
Proof.
  intros Hy Hm. unfold format_date, yyyy_mm.
  change (digits_string (yyyy y) ++ "-" ++ digits_string (mm m))
    with (digits_string (yyyy y) ++ String "-" (digits_string (mm m))).
  rewrite (split_digits_dash _ _ (yyyy_digits y)), (split_digits_only _ (mm_digits m)).
  change (list_index [digits_string (yyyy y); digits_string (mm m)] 0)
    with (Ret (A := string) (digits_string (yyyy y))).
  change (list_index [digits_string (yyyy y); digits_string (mm m)] 1)
    with (Ret (A := string) (digits_string (mm m))).
  cbn [obind].
  rewrite (int_digits _ (yyyy_digits y)) by first [discriminate | exact (proj1 (yyyy_mm_short y m))].
  cbn [obind].
  rewrite (int_digits _ (mm_digits m)) by first [discriminate | exact (proj2 (yyyy_mm_short y m))].
  cbn [obind].
  now rewrite (yyyy_value y Hy), (mm_value m Hm), (str_int_small y Hy).
Qed.

Lemma format_date_well_formed (y m : Z) :
  (0 <= y <= 9999)%Z -> (1 <= m <= 12)%Z ->
  format_date (yyyy_mm y m) = Ret (date_label y m).
Proof.
  intros Hy Hm. rewrite (format_date_parts y m Hy) by lia.
  unfold date_label.
  assert (Hcases : (m = 1 \/ m = 2 \/ m = 3 \/ m = 4 \/ m = 5 \/ m = 6 \/ m = 7
                    \/ m = 8 \/ m = 9 \/ m = 10 \/ m = 11 \/ m = 12)%Z) by lia.
  repeat (destruct Hcases as [-> | Hcases]; [reflexivity|]).
  now subst m.
Qed.

(** Months 13 to 99 are out of range for the table of abbreviations. *)
Lemma format_date_month_too_large (y m : Z) :
  (0 <= y <= 9999)%Z -> (13 <= m <= 99)%Z ->
  format_date (yyyy_mm y m) = Raise IndexError.
Proof.
  intros Hy Hm. rewrite (format_date_parts y m Hy) by lia.
  unfold list_index. cbv zeta.
  assert (Hneg : (m - 1 <? 0)%Z = false) by (apply Z.ltb_ge; lia).
  rewrite !Hneg.
  destruct (nth_error months (Z.to_nat (m - 1))) eqn:Hnth; [|reflexivity].
  assert (Hlen : (Z.to_nat (m - 1) < List.length months)%nat)
    by (apply nth_error_Some; congruence).
  cbn [months List.length] in Hlen. lia.
Qed.

(** Month [00] wraps around to the last entry of the table. *)
Lemma format_date_month_zero (y : Z) :
  (0 <= y <= 9999)%Z ->
  format_date (yyyy_mm y 0) = Ret ("Dec " ++ PyStr.of_int y).
Proof. intros Hy. now rewrite (format_date_parts y 0 Hy) by lia. Qed.

(** C7: for well-formed [YYYY-MM] texts the result is
    ["{AbbrevMonth} {Year} -- {EndLabel}"] with the three-letter English
    month names counted from 1, the end label being the formatted end date
    when one is given and [Present] when it is absent; a year from 1000 on
    is printed with the four digits it was written with. *)
Theorem format_duration_well_formed (y m y' m' : Z) :
  (0 <= y <= 9999)%Z -> (1 <= m <= 12)%Z ->
  (0 <= y' <= 9999)%Z -> (1 <= m' <= 12)%Z ->
  format_duration (yyyy_mm y m) (Some (yyyy_mm y' m'))
  = Ret (date_label y m ++ " -- " ++ date_label y' m')
  /\ format_duration (yyyy_mm y m) None = Ret (date_label y m ++ " -- Present")
  /\ ((1000 <= y)%Z -> date_label y m = month_abbrev m ++ " " ++ digits_string (yyyy y))
  /\ format_duration "2022-05" (Some "2024-08") = Ret "May 2022 -- Aug 2024"
  /\ format_duration "2025-01" None = Ret "Jan 2025 -- Present".
Proof.
  intros Hy Hm Hy' Hm'. unfold format_duration.
  rewrite (format_date_well_formed y m Hy Hm). cbn [obind].
  repeat split.
  - change (yyyy_mm y' m')
      with (String (digit_char (Z.to_nat ((y' / 1000) mod 10)))
                   (digits_string (tl (yyyy y')) ++ "-" ++ digits_string (mm m'))).
    cbv iota.
    change (String (digit_char (Z.to_nat ((y' / 1000) mod 10)))
                   (digits_string (tl (yyyy y')) ++ "-" ++ digits_string (mm m')))
      with (yyyy_mm y' m').
    now rewrite (format_date_well_formed y' m' Hy' Hm').
  - intros Hk. unfold date_label. now rewrite year_text_four_digits by lia.
Qed.

Lemma format_duration_well_formed_witness :
  format_duration (yyyy_mm 2022 5) (Some (yyyy_mm 2024 8))
  = Ret (date_label 2022 5 ++ " -- " ++ date_label 2024 8).
Proof.
  apply (format_duration_well_formed 2022 5 2024 8); lia.
Defined.

(** C3: month [00] is not rejected: [format_duration] answers with
    December, while month [13] and a year or month that is not a number do
    raise. *)
Theorem format_duration_month_zero_accepted :
  format_duration "2022-00" None = Ret "Dec 2022 -- Present"
  /\ format_duration "2022-13" None = Raise IndexError
  /\ format_duration "2022-xx" None = Raise ValueError
  /\ format_duration "20x2-05" None = Raise ValueError.
Proof. repeat split; reflexivity. Qed.

(** ** [join_tech] *)

Section JoinTech.

Context {F : Type} `{PyFloat F}.

Lemma as_strings_names (items : list (value F)) :
  forallb well_named items = true ->
  as_strings (filter truthy (map tech_name items)) = Ret (collect entry_name items).
Proof.
  induction items as [|tech items IH]; [reflexivity|].
  cbn [forallb]. intros [Hwell Hrest]%andb_true_iff.
  specialize (IH Hrest). cbn [map filter collect].
  assert (Hstr : forall s,
             as_strings (filter truthy (VStr s :: map tech_name items))
             = Ret (match nonempty s with
                    | Some n => n :: collect entry_name items
                    | None => collect entry_name items
                    end)).
  { intros [|c s]; cbn [filter truthy nonempty String.eqb negb as_strings].
    - exact IH.
    - cbn. rewrite IH. reflexivity. }
  destruct tech as [| b | z | f | s | l | fields]; cbn [tech_name entry_name];
    try apply Hstr.
  cbn [well_named] in Hwell.
  destruct (dict_get fields "name") as [[| b | z | f | s | l | d]|];
    try apply Hstr; cbn [filter]; apply negb_true_iff in Hwell;
    rewrite Hwell; exact IH.
Qed.

(** [join_tech] on a list with well-named records. *)
Lemma join_tech_collect (items : list (value F)) :
  forallb well_named items = true ->
  join_tech (VList items) = Ret (PyStr.join ", " (collect entry_name items)).
Proof.
  intros Hwell. destruct items as [|tech items]; [reflexivity|].
  unfold join_tech. cbn [truthy negb py_iter obind].
  change (py_join ", " (filter truthy (map tech_name (tech :: items)))
          = Ret (PyStr.join ", " (collect entry_name (tech :: items)))).
  unfold py_join. now rewrite (as_strings_names _ Hwell).
Qed.

Lemma collect_app {A B : Type} (f : A -> option B) (xs ys : list A) :
  collect f (xs ++ ys)%list = (collect f xs ++ collect f ys)%list.
Proof.
  induction xs as [|x xs IH]; [reflexivity|].
  cbn [collect app]. destruct (f x); cbn [app]; now rewrite IH.
Qed.

Lemma of_int_nonempty (z : Z) : PyStr.of_int z <> EmptyString.
Proof.
  unfold PyStr.of_int. destruct z as [|p|p]; cbn; try discriminate.
  pose proof (DecimalPos.Unsigned.to_uint_nonnil p) as Hp.
  destruct (Pos.to_uint p); [now elim Hp | discriminate ..].
Qed.

Lemma py_str_nonempty (v : value F) :
  (forall f, float_repr f <> EmptyString) ->
  is_string v = false -> py_str v <> EmptyString.
Proof.
  intros Hfloat Hv.
  destruct v as [| [|] | z | f | s | l | fields]; cbn; try discriminate.
  - apply of_int_nonempty.
  - apply Hfloat.
Qed.

(** C9, as amended: on a list of plain strings and records whose [name]
    is absent, holds a string, or holds a falsy value such as [None],
    [join_tech] joins the non-empty names with [", "], skipping the entries
    without one; an empty or absent list gives the empty string; and
    the list of the record named Go, the string Rust and a record with an
    empty name gives ["Go, Rust"]. *)
Theorem join_tech_names (items : list (value F)) :
  forallb (fun tech => (is_string tech || is_record tech) && well_named tech) items = true ->
  join_tech (VList items) = Ret (PyStr.join ", " (collect entry_name items))
  /\ join_tech (VList []) = Ret EmptyString
  /\ join_tech VNone = Ret EmptyString
  /\ join_tech (VList [VDict [("name", VStr "Go")]; VStr "Rust";
                       VDict [("name", VStr EmptyString)]])
     = Ret "Go, Rust".
Proof.
  intros Hitems. repeat split.
  apply join_tech_collect.
  rewrite forallb_forall in *. intros tech Hin.
  now destruct (andb_prop _ _ (Hitems tech Hin)).
Qed.

(** C10: an entry that is neither a record nor a string is neither skipped
    nor an error: its printed form stands in the joined text, at its place
    among the names of the other entries.  An empty plain string and a
    record without a name contribute nothing. *)
Theorem join_tech_other_entries (pre post : list (value F)) (e : value F) :
  (forall f, float_repr f <> EmptyString) ->
  forallb well_named pre = true -> forallb well_named post = true ->
  is_record e = false -> is_string e = false ->
  join_tech (VList (pre ++ e :: post))
  = Ret (PyStr.join ", " (collect entry_name pre ++ py_str e :: collect entry_name post))
  /\ py_str e <> EmptyString
  /\ join_tech (VList (pre ++ VStr EmptyString :: post))
     = Ret (PyStr.join ", " (collect entry_name pre ++ collect entry_name post))
  /\ (forall fields,
        dict_get fields "name" = None ->
        join_tech (VList (pre ++ VDict fields :: post))
        = Ret (PyStr.join ", " (collect entry_name pre ++ collect entry_name post))).
Proof.
  intros Hfloat Hpre Hpost Hrec Hstr.
  pose proof (py_str_nonempty e Hfloat Hstr) as Hne.
  assert (Hname : entry_name e = Some (py_str e)).
  { destruct e as [| b | z | f | s | l | fields]; try discriminate;
      cbn [entry_name]; destruct (py_str _) eqn:E; try reflexivity; now elim Hne. }
  assert (Hwell : forall x, well_named x = true ->
                            forallb well_named (pre ++ x :: post) = true).
  { intros x Hx. rewrite forallb_app. cbn [forallb]. now rewrite Hpre, Hx, Hpost. }
  repeat split.
  - rewrite join_tech_collect by (apply Hwell; now destruct e).
    rewrite collect_app. cbn [collect]. now rewrite Hname.
  - exact Hne.
  - rewrite join_tech_collect by now apply Hwell.
    now rewrite collect_app.
  - intros fields Hnone.
    rewrite join_tech_collect by (apply Hwell; cbn; now rewrite Hnone).
    rewrite collect_app. cbn [collect entry_name]. now rewrite Hnone.
Qed.

End JoinTech.

Lemma join_tech_names_witness :
  join_tech (F := Sample.flt) (VList [VStr "Go"; VDict [("name", VStr "Rust")]])
  = Ret (PyStr.join ", " (collect entry_name
                            [VStr (F := Sample.flt) "Go"; VDict [("name", VStr "Rust")]])).
Proof.
  apply (join_tech_names (F := Sample.flt) [VStr "Go"; VDict [("name", VStr "Rust")]]).
  reflexivity.
Defined.

(** C9 as it was worded does not hold: a record with a [name] field that
    holds a number is a record with a [name] field, and on a list with
    such a record [join_tech] does not return a text, it raises
    [TypeError]. *)
Lemma join_tech_names_counterexample :
  ~ (forall items : list (value Sample.flt),
        forallb string_or_named_record items = true ->
        exists text, join_tech (VList items) = Ret text).
Proof.
  intros Hclaim.
  destruct (Hclaim [VDict [("name", VStr "Go")]; VDict [("name", VInt 5)]] eq_refl)
    as (text & Htext).
  discriminate Htext.
Qed.

Lemma join_tech_other_entries_witness :
  join_tech (F := Sample.flt) (VList ([VStr "Go"] ++ VInt 3 :: [VBool true]))
  = Ret "Go, 3, True".
Proof.
  apply (join_tech_other_entries (F := Sample.flt) [VStr "Go"] [VBool true] (VInt 3)).
  - intros []; discriminate.
  - reflexivity.
  - reflexivity.
  - reflexivity.
  - reflexivity.
Defined.

(** ** Dictionaries *)

Section Dictionaries.

Context {F : Type}.

Lemma dict_get_set_same (d : dict F) (k : string) (v : value F) :
  dict_get (dict_set d k v) k = Some v.
Proof.
  induction d as [|[k' v'] d IH]; cbn [dict_set dict_get].
  - now rewrite String.eqb_refl.
  - destruct (String.eqb_spec k' k) as [->|Hne]; cbn [dict_get].
    + now rewrite String.eqb_refl.
    + destruct (String.eqb_spec k' k); [contradiction | exact IH].
Qed.

Lemma dict_get_set_other (d : dict F) (k k' : string) (v : value F) :
  k <> k' -> dict_get (dict_set d k v) k' = dict_get d k'.
Proof.
  intros Hne. induction d as [|[k0 v0] d IH]; cbn [dict_set dict_get].
  - destruct (String.eqb_spec k k'); [contradiction | reflexivity].
  - destruct (String.eqb_spec k0 k) as [->|Hk0]; cbn [dict_get].
    + destruct (String.eqb_spec k k'); [contradiction | reflexivity].
    + destruct (String.eqb_spec k0 k'); [reflexivity | exact IH].
Qed.

Lemma dict_has_set (d : dict F) (k k' : string) (v : value F) :
  dict_has (dict_set d k v) k' = true <-> k = k' \/ dict_has d k' = true.
Proof.
  unfold dict_has. destruct (string_dec k k') as [->|Hne].
  - rewrite dict_get_set_same. tauto.
  - rewrite dict_get_set_other by exact Hne. tauto.
Qed.

End Dictionaries.

(** ** The config loader *)

Section Loader.

Context {F : Type} `{PyFloat F} `{Platform F}.

(** A run of the loop that returns has printed nothing and has stored a
    document for exactly the files that are there. *)
Lemma load_config_files_keys (data_dir : path) (entries : list (string * string)) :
  forall (context context' : dict F) (w w' : world),
    load_config_files data_dir entries context w = (Ret context', w') ->
    w' = w
    /\ forall k,
        dict_has context' k = true
        <-> dict_has context k = true
            \/ exists filename,
                In (k, filename) entries
                /\ files w (joinpath data_dir filename) <> None.
Proof.
  induction entries as [|[key filename] entries IH]; intros context context' w w' Hrun.
  - cbn in Hrun. injection Hrun as <- <-. split; [reflexivity|].
    intros k. split; [tauto | intros [Hk | (fn & [] & _)]; exact Hk].
  - cbn [load_config_files] in Hrun. unfold bind at 1, path_exists in Hrun.
    destruct (files w (joinpath data_dir filename)) as [[text|]|] eqn:Efile.
    + unfold bind at 1, load_json_file in Hrun. rewrite Efile in Hrun.
      destruct (json_loads text) as [document|e].
      * apply IH in Hrun as [-> Hkeys]. split; [reflexivity|].
        intros k. rewrite Hkeys, dict_has_set. split.
        -- intros [[<- | Hk] | (fn & Hin & Hfile)].
           ++ right. exists filename. split; [now left | congruence].
           ++ now left.
           ++ right. exists fn. split; [now right | exact Hfile].
        -- intros [Hk | (fn & [Heq | Hin] & Hfile)].
           ++ left. now right.
           ++ injection Heq as <- <-. left. now left.
           ++ right. exists fn. now split.
      * cbn in Hrun. discriminate.
    + unfold bind at 1, load_json_file in Hrun. rewrite Efile in Hrun. discriminate.
    + apply IH in Hrun as [-> Hkeys]. split; [reflexivity|].
      intros k. rewrite Hkeys. split.
      * intros [Hk | (fn & Hin & Hfile)]; [now left|].
        right. exists fn. split; [now right | exact Hfile].
      * intros [Hk | (fn & [Heq | Hin] & Hfile)]; [now left | |].
        -- injection Heq as <- <-. congruence.
        -- right. exists fn. now split.
Qed.

(** One promotion rule. *)
Lemma promote_effect (source subkey target : string) (context context' : dict F) :
  promote source subkey target context = Ret context' ->
  (forall k, k <> target -> dict_get context' k = dict_get context k)
  /\ ((exists document v,
         dict_get context source = Some document
         /\ py_in subkey document = Ret true
         /\ py_getitem document subkey = Ret v
         /\ dict_get context' target = Some v)
      \/ ((dict_get context source = None
           \/ exists document,
               dict_get context source = Some document
               /\ py_in subkey document = Ret false)
          /\ context' = context)).
Proof.
  unfold promote. intros Hrun.
  destruct (dict_get context source) as [document|] eqn:Esource.
  - destruct (py_in subkey document) as [[|]|e] eqn:Ein; cbn [obind] in Hrun.
    + destruct (py_getitem document subkey) as [v|e] eqn:Eget; cbn [obind] in Hrun;
        [|discriminate].
      injection Hrun as <-. split.
      * intros k Hk. apply dict_get_set_other. congruence.
      * left. exists document, v.
        repeat split; try reflexivity; try assumption.
        apply dict_get_set_same.
    + injection Hrun as <-. split; [reflexivity|].
      right. split; [|reflexivity]. right. now exists document.
    + discriminate.
  - injection Hrun as <-. split; [reflexivity|].
    right. split; [now left | reflexivity].
Qed.

Lemma dict_has_false (d : dict F) (k : string) :
  dict_has d k = false -> dict_get d k = None.
Proof. unfold dict_has. now destruct (dict_get d k). Qed.

(** The stages of [load_all_configs]. *)
Lemma load_all_configs_stages (data_dir : path) (w w' : world) (context : dict F) :
  load_all_configs data_dir w = (Ret context, w') ->
  exists c0 c1 c2 c3,
    load_config_files data_dir config_files [] w = (Ret c0, w')
    /\ w' = w
    /\ promote "experience_data" "experience" "experience" c0 = Ret c1
    /\ promote "projects_data" "projects" "projects" c1 = Ret c2
    /\ promote "skills_data" "categories" "skills" c2 = Ret c3
    /\ promote "education_data" "education" "education" c3 = Ret context.
Proof.
  unfold load_all_configs, bind, lift, ret. intros Hrun.
  destruct (load_config_files data_dir config_files [] w) as [[c0|e] w0] eqn:E0;
    [|discriminate].
  destruct (promote "experience_data" "experience" "experience" c0) as [c1|e] eqn:E1;
    [|discriminate].
  destruct (promote "projects_data" "projects" "projects" c1) as [c2|e] eqn:E2;
    [|discriminate].
  destruct (promote "skills_data" "categories" "skills" c2) as [c3|e] eqn:E3;
    [|discriminate].
  destruct (promote "education_data" "education" "education" c3) as [c4|e] eqn:E4;
    [|discriminate].
  injection Hrun as <- <-.
  exists c0, c1, c2, c3. repeat split; try reflexivity; try assumption.
  now apply load_config_files_keys in E0 as [-> _].
Qed.

Lemma config_files_functional (key f1 f2 : string) :
  In (key, f1) config_files -> In (key, f2) config_files -> f1 = f2.
Proof.
  unfold config_files. cbn [In]. intuition congruence.
Qed.

(** Instantiate a statement about all keys but one at the keys the
    promotion rules read and write. *)
Ltac at_rule_keys Hkeep :=
  pose proof (Hkeep "experience_data") as ?Hk;
  pose proof (Hkeep "projects_data") as ?Hk;
  pose proof (Hkeep "skills_data") as ?Hk;
  pose proof (Hkeep "education_data") as ?Hk;
  pose proof (Hkeep "experience") as ?Hk;
  pose proof (Hkeep "projects") as ?Hk;
  pose proof (Hkeep "skills") as ?Hk;
  pose proof (Hkeep "education") as ?Hk.

Ltac discharge_distinct :=
  repeat match goal with
         | Hk : ?a <> ?b -> _ |- _ =>
             first [ specialize (Hk ltac:(discriminate)) | clear Hk ]
         end.

(** The context [load_all_configs] returns: keys of the config files. *)
Lemma load_all_configs_file_keys (data_dir : path) (w w' : world) (context : dict F) :
  load_all_configs data_dir w = (Ret context, w') ->
  forall key filename,
    In (key, filename) config_files ->
    (dict_has context key = true <-> files w (joinpath data_dir filename) <> None).
Proof.
  intros Hrun key filename Hin.
  apply load_all_configs_stages in Hrun
    as (c0 & c1 & c2 & c3 & Hload & -> & H1 & H2 & H3 & H4).
  apply load_config_files_keys in Hload as [_ Hkeys].
  apply promote_effect in H1 as [K1 _], H2 as [K2 _], H3 as [K3 _], H4 as [K4 _].
  assert (Hsame : dict_get context key = dict_get c0 key).
  { unfold config_files in Hin. cbn [In] in Hin.
    repeat (destruct Hin as [Hin | Hin];
            [injection Hin as <- <-;
             rewrite K4, K3, K2, K1 by discriminate; reflexivity|]).
    contradiction. }
  unfold dict_has in *. rewrite Hsame. rewrite Hkeys. cbn [dict_get]. split.
  - intros [Hk | (fn & Hfn & Hfile)]; [discriminate|].
    now rewrite (config_files_functional key filename fn Hin Hfn).
  - intros Hfile. right. now exists filename.
Qed.

(** One rule of [promotions], once the keys it does not touch are known
    to be unchanged: either the subkey was found and copied, or nothing
    happened and the promoted key is still absent. *)
Ltac settle_rule E ctx s t :=
  let d := fresh "d" in
  let v := fresh "v" in
  let Hs := fresh "Hs" in
  let Hi := fresh "Hi" in
  let Hg := fresh "Hg" in
  let Ht := fresh "Ht" in
  let Hc := fresh "Hc" in
  let Ns := fresh "Ns" in
  let Nt := fresh "Nt" in
  destruct E as [(d & v & Hs & Hi & Hg & Ht) | [[Hs | (d & Hs & Hi)] Hc]];
  [ assert (Nt : dict_get ctx t = Some v) by congruence;
    assert (Ns : dict_get ctx s = Some d) by congruence;
    rewrite Nt, Ns;
    split;
    [ split; [intros _; now exists d | reflexivity]
    | let d' := fresh "d" in
      let Hd' := fresh "Hd" in
      intros d' Hd' _; injection Hd' as <-; now exists v ]
  | assert (Nt : dict_get ctx t = None) by congruence;
    assert (Ns : dict_get ctx s = None) by congruence;
    rewrite Nt, Ns;
    split;
    [ split; [discriminate | intros (? & ? & _); discriminate]
    | discriminate ]
  | assert (Nt : dict_get ctx t = None) by congruence;
    assert (Ns : dict_get ctx s = Some d) by congruence;
    rewrite Nt, Ns;
    split;
    [ split; [discriminate | intros (? & ? & ?); congruence]
    | intros; congruence ] ].

(** The context [load_all_configs] returns: promoted keys. *)
Lemma load_all_configs_promoted (data_dir : path) (w w' : world) (context : dict F) :
  load_all_configs data_dir w = (Ret context, w') ->
  forall source subkey target,
    In (source, subkey, target) promotions ->
    (dict_has context target = true
     <-> exists document,
         dict_get context source = Some document
         /\ py_in subkey document = Ret true)
    /\ forall document,
        dict_get context source = Some document ->
        py_in subkey document = Ret true ->
        exists v,
          py_getitem document subkey = Ret v /\ dict_get context target = Some v.
Proof.
  intros Hrun source subkey target Hin.
  apply load_all_configs_stages in Hrun
    as (c0 & c1 & c2 & c3 & Hload & -> & H1 & H2 & H3 & H4).
  apply load_config_files_keys in Hload as [_ Hkeys].
  assert (Hfresh : forall k,
             (forall fn, ~ In (k, fn) config_files) -> dict_get c0 k = None).
  { intros k Hk. apply dict_has_false.
    destruct (dict_has c0 k) eqn:E; [|reflexivity].
    apply Hkeys in E as [E | (fn & Hfn & _)]; [discriminate | now elim (Hk fn)]. }
  assert (Hnot : forall k,
             k = "experience" \/ k = "projects" \/ k = "skills" \/ k = "education" ->
             forall fn, ~ In (k, fn) config_files).
  { unfold config_files. cbn [In]. intuition congruence. }
  pose proof (Hfresh "experience" (Hnot "experience" ltac:(tauto))) as F1.
  pose proof (Hfresh "projects" (Hnot "projects" ltac:(tauto))) as F2.
  pose proof (Hfresh "skills" (Hnot "skills" ltac:(tauto))) as F3.
  pose proof (Hfresh "education" (Hnot "education" ltac:(tauto))) as F4.
  clear Hfresh Hnot Hkeys.
  apply promote_effect in H1 as [K1 E1], H2 as [K2 E2], H3 as [K3 E3], H4 as [K4 E4].
  at_rule_keys K1. at_rule_keys K2. at_rule_keys K3. at_rule_keys K4.
  discharge_distinct. clear K1 K2 K3 K4.
  unfold promotions in Hin. cbn [In] in Hin. unfold dict_has.
  destruct Hin as [Hin | [Hin | [Hin | [Hin | []]]]]; injection Hin as <- <- <-.
  - settle_rule E1 constr:(context) "experience_data" "experience".
  - settle_rule E2 constr:(context) "projects_data" "projects".
  - settle_rule E3 constr:(context) "skills_data" "skills".
  - settle_rule E4 constr:(context) "education_data" "education".
Qed.

(** *** The loader returns when every file that is there holds a JSON object *)

Lemma load_config_files_total (data_dir : path) (w : world)
      (entries : list (string * string)) :
  (forall key filename,
      In (key, filename) entries ->
      files w (joinpath data_dir filename) = None
      \/ exists text fields,
          files w (joinpath data_dir filename) = Some (File text)
          /\ json_loads text = inl (VDict fields)) ->
  forall context : dict F,
    (forall k document, dict_get context k = Some document -> is_record document = true) ->
    exists context',
      load_config_files data_dir entries context w = (Ret context', w)
      /\ forall k document,
          dict_get context' k = Some document -> is_record document = true.
Proof.
  induction entries as [|[key filename] entries IH]; intros Hfiles context Hrecords.
  - exists context. now split.
  - cbn [load_config_files]. unfold bind at 1, path_exists.
    assert (Hrest : forall k fn,
               In (k, fn) entries ->
               files w (joinpath data_dir fn) = None
               \/ exists text fields,
                   files w (joinpath data_dir fn) = Some (File text)
                   /\ json_loads text = inl (VDict fields))
      by (intros k fn Hin; apply (Hfiles k fn); now right).
    destruct (Hfiles key filename (or_introl eq_refl))
      as [Hnone | (text & fields & Hfile & Hjson)].
    + rewrite Hnone. now apply IH.
    + rewrite Hfile. unfold bind at 1, load_json_file. rewrite Hfile, Hjson.
      apply IH; [exact Hrest|].
      intros k document. destruct (string_dec key k) as [<-|Hne].
      * rewrite dict_get_set_same. now intros [= <-].
      * rewrite dict_get_set_other by exact Hne. apply Hrecords.
Qed.

Lemma promote_total (source subkey target : string) (context : dict F) :
  (forall document, dict_get context source = Some document -> is_record document = true) ->
  exists context', promote source subkey target context = Ret context'.
Proof.
  intros Hrecord. unfold promote.
  destruct (dict_get context source) as [document|]; [|now exists context].
  specialize (Hrecord document eq_refl).
  destruct document as [| | | | | |fields]; try discriminate.
  cbn [py_in obind py_getitem]. unfold dict_has.
  destruct (dict_get fields subkey) as [v|]; cbn [obind]; eauto.
Qed.

Lemma load_all_configs_total (data_dir : path) (w : world) :
  (forall key filename,
      In (key, filename) config_files ->
      files w (joinpath data_dir filename) = None
      \/ exists text fields,
          files w (joinpath data_dir filename) = Some (File text)
          /\ json_loads text = inl (VDict fields)) ->
  exists context, load_all_configs data_dir w = (Ret context, w).
Proof.
  intros Hfiles.
  destruct (load_config_files_total data_dir w config_files Hfiles [])
    as (c0 & Hload & R0); [discriminate|].
  destruct (promote_total "experience_data" "experience" "experience" c0 (R0 _))
    as (c1 & H1).
  pose proof (promote_effect _ _ _ _ _ H1) as [K1 _].
  destruct (promote_total "projects_data" "projects" "projects" c1) as (c2 & H2).
  { intros document. rewrite K1 by discriminate. apply R0. }
  pose proof (promote_effect _ _ _ _ _ H2) as [K2 _].
  destruct (promote_total "skills_data" "categories" "skills" c2) as (c3 & H3).
  { intros document. rewrite K2, K1 by discriminate. apply R0. }
  pose proof (promote_effect _ _ _ _ _ H3) as [K3 _].
  destruct (promote_total "education_data" "education" "education" c3) as (c4 & H4).
  { intros document. rewrite K3, K2, K1 by discriminate. apply R0. }
  exists c4. unfold load_all_configs, bind, lift, ret.
  now rewrite Hload, H1, H2, H3, H4.
Qed.

(** *** The three required documents and nothing else *)

Lemma load_all_configs_minimal (data_dir : path) (w : world)
      (profile_text experience_text education_text : string)
      (profile : value F) (experience_doc education_doc : dict F)
      (jobs schools : list (value F)) :
  files w (joinpath data_dir "profile.json") = Some (File profile_text) ->
  json_loads profile_text = inl profile ->
  files w (joinpath data_dir "experience.json") = Some (File experience_text) ->
  json_loads experience_text = inl (VDict experience_doc) ->
  dict_get experience_doc "experience" = Some (VList jobs) ->
  files w (joinpath data_dir "education.json") = Some (File education_text) ->
  json_loads education_text = inl (VDict education_doc) ->
  dict_get education_doc "education" = Some (VList schools) ->
  files w (joinpath data_dir "projects.json") = None ->
  files w (joinpath data_dir "skills.json") = None ->
  files w (joinpath data_dir "contact.json") = None ->
  files w (joinpath data_dir "seo.json") = None ->
  load_all_configs data_dir w
  = (Ret [ ("profile", profile);
           ("experience_data", VDict experience_doc);
           ("education_data", VDict education_doc);
           ("experience", VList jobs);
           ("education", VList schools) ], w).
Proof.
  intros Hp Jp He Je Ge Hd Jd Gd Hproj Hskills Hcontact Hseo.
  unfold load_all_configs, config_files. cbn [load_config_files].
  unfold bind, path_exists, load_json_file, lift, ret.
  repeat (first [ rewrite Hp | rewrite Jp | rewrite He | rewrite Je
                 | rewrite Hproj | rewrite Hskills | rewrite Hd | rewrite Jd
                 | rewrite Hcontact | rewrite Hseo ];
          cbv beta iota).
  unfold promote. cbn [dict_set dict_get String.eqb Ascii.eqb Bool.eqb obind py_in py_getitem].
  unfold dict_has. rewrite Ge.
  cbn [obind dict_set dict_get String.eqb Ascii.eqb Bool.eqb py_in py_getitem].
  unfold dict_has. rewrite Gd. reflexivity.
Qed.

(** C6: the context has the key of a config document exactly when its file
    is there, and a promoted key exactly when its source key is there and
    holds the subkey, the promoted value being the value of the subkey;
    the loader does return a context when the files that are there hold
    JSON objects; and with only [profile.json], [experience.json] (an
    [experience] list) and [education.json] (an [education] list) the
    context has [profile], [experience] and [education] and neither
    [projects] nor [skills]. *)
Theorem load_all_configs_context (data_dir : path) (w : world) :
  (forall context w',
      load_all_configs data_dir w = (Ret context, w') ->
      (forall key filename,
          In (key, filename) config_files ->
          (dict_has context key = true
           <-> files w (joinpath data_dir filename) <> None))
      /\ (forall source subkey target,
             In (source, subkey, target) promotions ->
             (dict_has context target = true
              <-> exists document,
                  dict_get context source = Some document
                  /\ py_in subkey document = Ret true)
             /\ forall document,
                 dict_get context source = Some document ->
                 py_in subkey document = Ret true ->
                 exists v,
                   py_getitem document subkey = Ret v
                   /\ dict_get context target = Some v))
  /\ ((forall key filename,
          In (key, filename) config_files ->
          files w (joinpath data_dir filename) = None
          \/ exists text fields,
              files w (joinpath data_dir filename) = Some (File text)
              /\ json_loads text = inl (VDict fields)) ->
      exists context, load_all_configs data_dir w = (Ret context, w))
  /\ (forall profile_text experience_text education_text
             profile experience_doc education_doc jobs schools,
         files w (joinpath data_dir "profile.json") = Some (File profile_text) ->
         json_loads profile_text = inl profile ->
         files w (joinpath data_dir "experience.json") = Some (File experience_text) ->
         json_loads experience_text = inl (VDict experience_doc) ->
         dict_get experience_doc "experience" = Some (VList jobs) ->
         files w (joinpath data_dir "education.json") = Some (File education_text) ->
         json_loads education_text = inl (VDict education_doc) ->
         dict_get education_doc "education" = Some (VList schools) ->
         files w (joinpath data_dir "projects.json") = None ->
         files w (joinpath data_dir "skills.json") = None ->
         files w (joinpath data_dir "contact.json") = None ->
         files w (joinpath data_dir "seo.json") = None ->
         exists context,
           load_all_configs data_dir w = (Ret context, w)
           /\ dict_get context "profile" = Some profile
           /\ dict_get context "experience" = Some (VList jobs)
           /\ dict_get context "education" = Some (VList schools)
           /\ dict_has context "projects" = false
           /\ dict_has context "skills" = false).
Proof.
  split; [|split].
  - intros context w' Hrun. split.
    + exact (load_all_configs_file_keys data_dir w w' context Hrun).
    + exact (load_all_configs_promoted data_dir w w' context Hrun).
  - apply load_all_configs_total.
  - intros profile_text experience_text education_text
           profile experience_doc education_doc jobs schools
           Hp Jp He Je Ge Hd Jd Gd Hproj Hskills Hcontact Hseo.
    eexists. split.
    + exact (load_all_configs_minimal data_dir w _ _ _ _ _ _ _ _
               Hp Jp He Je Ge Hd Jd Gd Hproj Hskills Hcontact Hseo).
    + repeat split.
Qed.

End Loader.

Lemma load_all_configs_context_witness :
  exists context,
    load_all_configs (Path "/srv/resume/data") (Sample.start Sample.checkout)
    = (Ret context, Sample.start Sample.checkout)
    /\ dict_get context "profile" = Some (VDict [("name", VStr "Ada")])
    /\ dict_get context "experience" = Some (VList [VStr "Acme"])
    /\ dict_get context "education" = Some (VList [VStr "MIT"])
    /\ dict_has context "projects" = false
    /\ dict_has context "skills" = false.
Proof.
  apply (proj2 (proj2 (load_all_configs_context
                         (Path "/srv/resume/data") (Sample.start Sample.checkout)))
           Sample.profile_text Sample.experience_text Sample.education_text
           (VDict [("name", VStr "Ada")])
           [("experience", VList [VStr "Acme"])]
           [("education", VList [VStr "MIT"])]);
    reflexivity.
Defined.

(** ** The driver *)

Section Driver.

Context {F : Type} `{PyFloat F} `{Platform F}.

Lemma load_config_files_files (data_dir : path) (entries : list (string * string)) :
  forall (context : dict F) (w w' : world) (r : outcome (dict F)),
    load_config_files data_dir entries context w = (r, w') -> files w' = files w.
Proof.
  induction entries as [|[key filename] entries IH]; intros context w w' r Hrun.
  - cbn in Hrun. now injection Hrun as <- <-.
  - cbn [load_config_files] in Hrun. unfold bind at 1, path_exists in Hrun.
    destruct (files w (joinpath data_dir filename)) as [[text|]|] eqn:Efile.
    + unfold bind at 1, load_json_file in Hrun. rewrite Efile in Hrun.
      destruct (json_loads text) as [document|e].
      * now apply IH in Hrun.
      * cbn in Hrun. now injection Hrun as <- <-.
    + unfold bind at 1, load_json_file in Hrun. rewrite Efile in Hrun.
      now injection Hrun as <- <-.
    + now apply IH in Hrun.
Qed.

Lemma load_all_configs_files (data_dir : path) (w w' : world) (r : outcome (dict F)) :
  load_all_configs data_dir w = (r, w') -> files w' = files w.
Proof.
  unfold load_all_configs, bind, lift, ret. intros Hrun.
  destruct (load_config_files data_dir config_files [] w) as [[c0|e] w0] eqn:E0.
  - apply load_config_files_files in E0.
    repeat match type of Hrun with
           | context [match promote ?a ?b ?c ?d with _ => _ end] =>
               destruct (promote a b c d)
           end;
      injection Hrun as <- <-; exact E0.
  - apply load_config_files_files in E0. now injection Hrun as <- <-.
Qed.

(** The loader only ever raises exceptions that end the process with
    status 1. *)
Lemma load_config_files_raises (data_dir : path) (entries : list (string * string)) :
  forall (context : dict F) (w w' : world) (e : exn),
    load_config_files data_dir entries context w = (Raise e, w') ->
    e = SystemExit 1 \/ exists msg, e = OSError msg.
Proof.
  induction entries as [|[key filename] entries IH]; intros context w w' e Hrun.
  - discriminate.
  - cbn [load_config_files] in Hrun. unfold bind at 1, path_exists in Hrun.
    destruct (files w (joinpath data_dir filename)) as [[text|]|] eqn:Efile.
    + unfold bind at 1, load_json_file in Hrun. rewrite Efile in Hrun.
      destruct (json_loads text) as [document|msg].
      * now apply IH in Hrun.
      * cbn in Hrun. injection Hrun as <- _. now left.
    + unfold bind at 1, load_json_file in Hrun. rewrite Efile in Hrun.
      injection Hrun as <- _. right. eauto.
    + now apply IH in Hrun.
Qed.

Lemma promote_raises (source subkey target : string) (context : dict F) (e : exn) :
  promote source subkey target context = Raise e -> e = TypeError \/ e = KeyError.
Proof.
  unfold promote. destruct (dict_get context source) as [document|]; [|discriminate].
  destruct document as [| b | z | f | s | items | fields];
    cbn [py_in obind py_getitem]; try (intros [= <-]; now left).
  - destruct (PyStr.contains subkey s); [intros [= <-]; now left | discriminate].
  - destruct (existsb _ items); [intros [= <-]; now left | discriminate].
  - unfold dict_has. destruct (dict_get fields subkey); cbn; discriminate.
Qed.

Lemma load_all_configs_raises (data_dir : path) (w w' : world) (e : exn) :
  load_all_configs data_dir w = (Raise e, w') ->
  exit_status (A := bool) (Raise e) = 1%Z.
Proof.
  unfold load_all_configs, bind, lift, ret. intros Hrun.
  destruct (load_config_files data_dir config_files [] w) as [[c0|e0] w0] eqn:E0.
  - repeat match type of Hrun with
           | context [match promote ?a ?b ?c ?d with _ => _ end] =>
               let E := fresh "E" in
               destruct (promote a b c d) eqn:E;
               [|injection Hrun as <- _;
                 apply promote_raises in E as [-> | ->]; reflexivity]
           end.
    discriminate.
  - injection Hrun as <- _.
    apply load_config_files_raises in E0 as [-> | (msg & ->)]; reflexivity.
Qed.

(** A malformed file keeps the loop from returning. *)
Lemma load_config_files_parsed (data_dir : path) (entries : list (string * string)) :
  forall (context context' : dict F) (w w' : world),
    load_config_files data_dir entries context w = (Ret context', w') ->
    forall key filename text,
      In (key, filename) entries ->
      files w (joinpath data_dir filename) = Some (File text) ->
      exists document, json_loads text = inl document.
Proof.
  induction entries as [|[key filename] entries IH];
    intros context context' w w' Hrun k fn text Hin Hfile; [now elim Hin|].
  cbn [load_config_files] in Hrun. unfold bind at 1, path_exists in Hrun.
  destruct (files w (joinpath data_dir filename)) as [[text'|]|] eqn:Efile.
  - unfold bind at 1, load_json_file in Hrun. rewrite Efile in Hrun.
    destruct (json_loads text') as [document|msg] eqn:Ejson.
    + destruct Hin as [Heq | Hin].
      * injection Heq as <- <-. rewrite Efile in Hfile. injection Hfile as <-. eauto.
      * exact (IH _ _ _ _ Hrun k fn text Hin Hfile).
    + cbn in Hrun. discriminate.
  - unfold bind at 1, load_json_file in Hrun. rewrite Efile in Hrun. discriminate.
  - destruct Hin as [Heq | Hin].
    + injection Heq as <- <-. congruence.
    + exact (IH _ _ _ _ Hrun k fn text Hin Hfile).
Qed.

Lemma missing_keys_spec (context : dict F) (k : string) :
  In k (missing_keys context)
  <-> In k required_keys
      /\ (dict_get context k = None
          \/ exists v, dict_get context k = Some v /\ truthy v = false).
Proof.
  unfold missing_keys. rewrite filter_In.
  destruct (dict_get context k) as [v|].
  - rewrite negb_true_iff. split.
    + intros [Hin Hv]. split; [exact Hin|]. right. now exists v.
    + intros [Hin [Hnone | (v' & [= <-] & Hv)]]; [discriminate | now split].
  - split; [intros [Hin _]; split; [exact Hin | now left] | now intros [Hin _]].
Qed.

Ltac step_run :=
  unfold run, main, render_resume, bind, print, ret, raise; cbv beta iota.

(** C4: when a required key is absent from the context or holds a falsy
    value, [render_resume] prints one line that lists every such key and
    returns [False]; nothing is asked of the template engine, no file is
    touched, and the process ends with status 1. *)
Theorem render_resume_missing_required
        (template_dir : path) (template_file output_file : string)
        (data_dir : path) (w w1 : world) (context : dict F) :
  let loading := "Loading config files from: " ++ path_str data_dir in
  let report :=
    "Error: Missing required config data: " ++ PyStr.join ", " (missing_keys context) in
  load_all_configs data_dir (with_line w loading) = (Ret context, w1) ->
  missing_keys context <> [] ->
  render_resume template_dir template_file output_file data_dir w
  = (Ret false, with_line w1 report)
  /\ console (with_line w1 report) = (console w ++ [loading; report])%list
  /\ files (with_line w1 report) = files w
  /\ (forall k,
         In k (missing_keys context)
         <-> In k required_keys
             /\ (dict_get context k = None
                 \/ exists v, dict_get context k = Some v /\ truthy v = false))
  /\ (forall args,
         Path (data_dir_arg args) = data_dir ->
         run args w = (1%Z, with_line w1 report)).
Proof.
  intros loading report Hload Hmissing. subst loading.
  assert (Hrender : forall td tf o,
             render_resume td tf o data_dir w = (Ret false, with_line w1 report)).
  { intros td tf o. step_run. rewrite Hload.
    subst report. destruct (missing_keys context); [now elim Hmissing | reflexivity]. }
  pose proof (load_all_configs_stages _ _ _ _ Hload)
    as (_ & _ & _ & _ & _ & Hw1 & _).
  split; [apply Hrender|]. split; [|split; [|split]].
  - rewrite Hw1. cbn [console with_line]. now rewrite <- app_assoc.
  - now rewrite Hw1.
  - apply missing_keys_spec.
  - intros args <-. unfold run, main, bind. now rewrite Hrender.
Qed.

(** What a run does, stage by stage. *)
Lemma run_stages (args : cli_args) (w : world) :
  let data_dir := Path (data_dir_arg args) in
  let template_path := Path (template_arg args) in
  let output_path := joinpath PROJECT_ROOT (path_name (Path (output_arg args))) in
  let w0 := with_line w ("Loading config files from: " ++ path_str data_dir) in
  let fails := fst (run args w) = 1%Z /\ files (snd (run args w)) = files w in
  match load_all_configs data_dir w0 with
  | (Raise e, _) => fails
  | (Ret context, _) =>
      match missing_keys context with
      | _ :: _ => fails
      | [] =>
          match jinja_get_template (files w) (path_parent template_path)
                                   (path_name template_path) with
          | Raise (TemplateError _) => fails
          | Raise e =>
              fst (run args w) = exit_status (A := bool) (Raise e)
              /\ files (snd (run args w)) = files w
          | Ret template =>
              match jinja_render template context with
              | Raise (TemplateError _) => fails
              | Raise e =>
                  fst (run args w) = exit_status (A := bool) (Raise e)
                  /\ files (snd (run args w)) = files w
              | Ret rendered =>
                  match files w output_path, files w (path_parent output_path) with
                  | Some Directory, _ => fails
                  | _, Some Directory =>
                      match os_write (files w) output_path rendered with
                      | Completes =>
                          fst (run args w) = 0%Z
                          /\ files (snd (run args w))
                             = write_file output_path rendered (files w)
                      | OpenFails _ => fails
                      | WriteFails _ remains | EncodeFails remains =>
                          fst (run args w) = 1%Z
                          /\ files (snd (run args w))
                             = write_file output_path remains (files w)
                      end
                  | _, _ => fails
                  end
              end
          end
      end
  end.
Proof.
  intros data_dir template_path output_path w0 fails. subst fails.
  destruct (load_all_configs data_dir w0) as [[context|e] w1] eqn:Hload.
  - pose proof (load_all_configs_files _ _ _ _ Hload) as Hfiles.
    change (files w0) with (files w) in Hfiles.
    step_run. fold data_dir template_path w0. rewrite Hload.
    destruct (missing_keys context) as [|k ks]; [|now split].
    cbn [files with_line]. rewrite Hfiles.
    destruct (jinja_get_template (files w) (path_parent template_path)
                                 (path_name template_path)) as [template|[]];
      try (now split).
    destruct (jinja_render template context) as [rendered|[]]; try (now split).
    unfold open_write. cbn [files with_line]. rewrite Hfiles.
    fold output_path.
    destruct (files w output_path) as [[text|]|];
      destruct (files w (path_parent output_path)) as [[text'|]|];
      try destruct (os_write (files w) output_path rendered);
      cbn [fst snd files with_line]; rewrite ?Hfiles; now split.
  - pose proof (load_all_configs_files _ _ _ _ Hload) as Hfiles.
    pose proof (load_all_configs_raises _ _ _ _ Hload) as Hstatus.
    step_run. fold data_dir w0. rewrite Hload. now split.
Qed.

(** C5: a malformed config file, a missing required entity, a template
    that fails to load and a template that fails to render each end the
    process with status 1 and leave every file as it was; a run whose
    stages all succeed, the write included, ends with status 0 and has
    written the rendered text; and whenever a file differs after a run,
    the template had been rendered in memory before: the file is then the
    output file, holding the rendered text after a run that ended with
    status 0, or what an interrupted write left of it after a run that
    ended with status 1. *)
Theorem run_exit_status_and_output (args : cli_args) (w : world) :
  let data_dir := Path (data_dir_arg args) in
  let template_path := Path (template_arg args) in
  let output_path := joinpath PROJECT_ROOT (path_name (Path (output_arg args))) in
  let w0 := with_line w ("Loading config files from: " ++ path_str data_dir) in
  let loaded context :=
    (exists w1, load_all_configs data_dir w0 = (Ret context, w1))
    /\ missing_keys context = [] in
  let template_is template :=
    jinja_get_template (files w) (path_parent template_path) (path_name template_path)
    = Ret template in
  let fails := fst (run args w) = 1%Z /\ files (snd (run args w)) = files w in
  let writes rendered :=
    fst (run args w) = 0%Z
    /\ files (snd (run args w)) = write_file output_path rendered (files w) in
  ((exists key filename text e,
       In (key, filename) config_files
       /\ files w (joinpath data_dir filename) = Some (File text)
       /\ json_loads text = inr e) -> fails)
  /\ (forall context w1,
         load_all_configs data_dir w0 = (Ret context, w1) ->
         missing_keys context <> [] -> fails)
  /\ (forall context e,
         loaded context ->
         jinja_get_template (files w) (path_parent template_path)
                            (path_name template_path) = Raise (TemplateError e) ->
         fails)
  /\ (forall context template e,
         loaded context -> template_is template ->
         jinja_render template context = Raise (TemplateError e) -> fails)
  /\ (forall context template rendered,
         loaded context -> template_is template ->
         jinja_render template context = Ret rendered ->
         files w output_path <> Some Directory ->
         files w (path_parent output_path) = Some Directory ->
         os_write (files w) output_path rendered = Completes ->
         writes rendered)
  /\ (files (snd (run args w)) = files w
      \/ exists context template rendered,
          loaded context /\ template_is template
          /\ jinja_render template context = Ret rendered
          /\ (writes rendered
              \/ exists remains,
                  fst (run args w) = 1%Z
                  /\ files (snd (run args w))
                     = write_file output_path remains (files w))).
Proof.
  intros data_dir template_path output_path w0 loaded template_is fails writes.
  pose proof (run_stages args w) as Hrun. cbv zeta in Hrun.
  fold data_dir template_path output_path w0 in Hrun. fold fails in Hrun.
  subst loaded template_is. cbv beta.
  split; [|split; [|split; [|split; [|split]]]].
  - intros (key & filename & text & e & Hin & Hfile & Hjson).
    destruct (load_all_configs data_dir w0) as [[context|e'] w1] eqn:Hload;
      [|exact Hrun].
    apply load_all_configs_stages in Hload as (c0 & _ & _ & _ & Hload & _).
    destruct (load_config_files_parsed _ _ _ _ _ _ Hload key filename text Hin Hfile)
      as (document & Hdoc).
    congruence.
  - intros context w1 Hload Hmissing. rewrite Hload in Hrun.
    destruct (missing_keys context); [now elim Hmissing | exact Hrun].
  - intros context e [(w1 & Hload) Hmissing] Hget.
    now rewrite Hload, Hmissing, Hget in Hrun.
  - intros context template e [(w1 & Hload) Hmissing] Hget Hrender.
    now rewrite Hload, Hmissing, Hget, Hrender in Hrun.
  - intros context template rendered [(w1 & Hload) Hmissing] Hget Hrender
           Hout Hparent Hfate.
    rewrite Hload, Hmissing, Hget, Hrender, Hparent, Hfate in Hrun.
    destruct (files w output_path) as [[text|]|]; [exact Hrun | now elim Hout | exact Hrun].
  - destruct (load_all_configs data_dir w0) as [[context|e'] w1] eqn:Hload;
      [|left; apply Hrun].
    destruct (missing_keys context) eqn:Hmissing; [|left; apply Hrun].
    destruct (jinja_get_template (files w) (path_parent template_path)
                                 (path_name template_path))
      as [template|e'] eqn:Hget; [|left; destruct e'; apply Hrun].
    destruct (jinja_render template context) as [rendered|e'] eqn:Hrender;
      [|left; destruct e'; apply Hrun].
    destruct (files w output_path) as [[text|]|];
      destruct (files w (path_parent output_path)) as [[text'|]|];
      try (left; apply Hrun);
      destruct (os_write (files w) output_path rendered) as [|msg|msg remains|remains];
      try (left; apply Hrun);
      right; exists context, template, rendered;
      (split;
       [split; [eexists; first [reflexivity | eassumption]
               | first [reflexivity | assumption]]|]);
      (split; [first [reflexivity | assumption]|]);
      (split; [first [reflexivity | assumption]|]);
      first [ left; exact Hrun | right; exists remains; exact Hrun ].
Qed.

End Driver.

Lemma render_resume_missing_required_witness :
  render_resume (Path "/srv/resume/templates") "resume.tex.j2" "resume.tex"
                (Path "/srv/resume/data")
                (Sample.start Sample.checkout_without_education)
  = (Ret false,
     with_line
       (with_line (Sample.start Sample.checkout_without_education)
                  "Loading config files from: /srv/resume/data")
       "Error: Missing required config data: education").
Proof.
  apply (render_resume_missing_required
           (Path "/srv/resume/templates") "resume.tex.j2" "resume.tex"
           (Path "/srv/resume/data")
           (Sample.start Sample.checkout_without_education)
           (with_line (Sample.start Sample.checkout_without_education)
                      "Loading config files from: /srv/resume/data")
           [ ("profile", VDict [("name", VStr "Ada")]);
             ("experience_data", VDict [("experience", VList [VStr "Acme"])]);
             ("experience", VList [VStr "Acme"]) ]).
  - reflexivity.
  - discriminate.
Defined.

Lemma run_exit_status_and_output_witness :
  fst (run Sample.no_flags (Sample.start Sample.checkout)) = 0%Z
  /\ files (snd (run Sample.no_flags (Sample.start Sample.checkout)))
     = write_file (Path "/srv/resume/resume.tex") Sample.template_text
                  (files (Sample.start Sample.checkout)).
Proof.
  apply (proj1 (proj2 (proj2 (proj2 (proj2
           (@run_exit_status_and_output Sample.flt Sample.flt_float Sample.platform
              Sample.no_flags (Sample.start Sample.checkout))))))
           [ ("profile", VDict [("name", VStr "Ada")]);
             ("experience_data", VDict [("experience", VList [VStr "Acme"])]);
             ("education_data", VDict [("education", VList [VStr "MIT"])]);
             ("experience", VList [VStr "Acme"]);
             ("education", VList [VStr "MIT"]) ]
           Sample.template_text Sample.template_text).
  - split; [eexists; reflexivity | reflexivity].
  - reflexivity.
  - reflexivity.
  - discriminate.
  - reflexivity.
  - reflexivity.
Defined.

(** C2: the directory given with [--output] is dropped.  With
    [--output /tmp/out.tex] in a checkout at [/srv/resume] the run
    succeeds, [/tmp/out.tex] does not exist afterwards and the text is in
    [/srv/resume/out.tex]; without the flag the text goes to
    [/srv/resume/resume.tex]. *)
Theorem main_output_directory_dropped :
  let args := {| arg_template := None;
                 arg_output := Some "/tmp/out.tex";
                 arg_data_dir := None |} in
  let after := run args (Sample.start Sample.checkout) in
  let default := run Sample.no_flags (Sample.start Sample.checkout) in
  fst after = 0%Z
  /\ files (snd after) (Path "/tmp/out.tex") = None
  /\ files (snd after) (Path "/srv/resume/out.tex") = Some (File Sample.template_text)
  /\ fst default = 0%Z
  /\ files (snd default) (Path "/srv/resume/resume.tex")
     = Some (File Sample.template_text).
Proof. vm_compute. repeat split. Qed.

(** ** Worked runs on the sample checkout *)

Example run_default_console :
  console (snd (run Sample.no_flags (Sample.start Sample.checkout)))
  = [ "Loading config files from: /srv/resume/data";
      "Loaded configs: ['profile', 'experience_data', 'education_data', 'experience', 'education']";
      "Loading template: /srv/resume/templates/resume.tex.j2";
      "Writing output to: /srv/resume/resume.tex";
      "Resume template rendered successfully!" ].
Proof. vm_compute. reflexivity. Qed.

(** A document that is a list holding the subkey passes the membership
    test and then cannot be subscripted by it. *)
Example run_list_document :
  fst (load_all_configs
         (Path "/srv/resume/data")
         (Sample.start (("/srv/resume/data/experience.json", File Sample.list_text)
                          :: Sample.checkout)))
  = Raise TypeError.
Proof. vm_compute. reflexivity. Qed.

(** An empty [education] list is falsy, hence missing. *)
Example run_empty_education :
  let after :=
    run Sample.no_flags
        (Sample.start (("/srv/resume/data/education.json",
                        File Sample.empty_education_text) :: Sample.checkout)) in
  fst after = 1%Z
  /\ last (console (snd after)) EmptyString
     = "Error: Missing required config data: education".
Proof. vm_compute. split; reflexivity. Qed.

Example run_malformed_json :
  let after :=
    run Sample.no_flags
        (Sample.start (("/srv/resume/data/contact.json", File "{") :: Sample.checkout)) in
  fst after = 1%Z
  /\ last (console (snd after)) EmptyString
     = "Error: Invalid JSON in /srv/resume/data/contact.json: Expecting value: line 1 column 1 (char 0)"
  /\ files (snd after) (Path "/srv/resume/resume.tex") = None.
Proof. vm_compute. repeat split; reflexivity. Qed.

Example run_output_is_directory :
  let after :=
    run {| arg_template := None; arg_output := Some "/tmp"; arg_data_dir := None |}
        (Sample.start (("/srv/resume/tmp", Directory) :: Sample.checkout)) in
  fst after = 1%Z
  /\ last (console (snd after)) EmptyString
     = "Error writing output file: [Errno 21] Is a directory: '/srv/resume/tmp'".
Proof. vm_compute. split; reflexivity. Qed.

Example run_template_load_error :
  let after :=
    run Sample.no_flags
        (Sample.start (("/srv/resume/templates/resume.tex.j2", File "(( if") :: Sample.checkout)) in
  fst after = 1%Z
  /\ last (console (snd after)) EmptyString
     = "Error loading template: unexpected end of template"
  /\ files (snd after) (Path "/srv/resume/resume.tex") = None.
Proof. vm_compute. repeat split; reflexivity. Qed.

Example run_template_render_error :
  let after :=
    run Sample.no_flags
        (Sample.start (("/srv/resume/templates/resume.tex.j2", File "FAIL") :: Sample.checkout)) in
  fst after = 1%Z
  /\ last (console (snd after)) EmptyString = "Error rendering template: render failed"
  /\ files (snd after) (Path "/srv/resume/resume.tex") = None.
Proof. vm_compute. repeat split; reflexivity. Qed.

(** * Further properties of the filters, the loader and the driver *)

(** ** Searching for a literal and a path segment *)

Lemma after_literal_app (lit t : string) : after_literal lit (lit ++ t) = Some t.
Proof.
  induction lit as [|a lit IH]; [reflexivity|].
  cbn [append after_literal]. now rewrite Ascii.eqb_refl.
Qed.

Lemma after_literal_inv (lit : string) :
  forall s t, after_literal lit s = Some t -> s = lit ++ t.
Proof.
  induction lit as [|a lit IH]; intros s t Hs; cbn [after_literal] in Hs.
  - now injection Hs as <-.
  - destruct s as [|b s]; [discriminate|].
    destruct (Ascii.eqb_spec a b) as [<-|]; [|discriminate].
    cbn [append]. f_equal. now apply IH.
Qed.

Lemma prefix_app (lit t : string) : prefix lit (lit ++ t) = true.
Proof.
  induction lit as [|a lit IH]; [apply prefix_empty|].
  cbn [append prefix]. now destruct (ascii_dec a a).
Qed.

Lemma slash_free_app (a b : string) :
  slash_free (a ++ b) = slash_free a && slash_free b.
Proof.
  induction a as [|c a IH]; [reflexivity|].
  cbn [append slash_free]. rewrite IH. now rewrite andb_assoc.
Qed.

Lemma run_before_slash_free (s : string) : slash_free (run_before "/" s) = true.
Proof.
  induction s as [|c s IH]; [reflexivity|].
  cbn [run_before]. destruct (Ascii.eqb c "/") eqn:E; [reflexivity|].
  cbn [slash_free]. now rewrite E, IH.
Qed.

Lemma run_before_split (s : string) :
  exists t, s = run_before "/" s ++ t /\ ends_segment t = true.
Proof.
  induction s as [|c s (t & Hs & Ht)]; [now exists EmptyString|].
  cbn [run_before]. destruct (Ascii.eqb c "/") eqn:E.
  - exists (String c s). split; [reflexivity | exact E].
  - exists t. split; [cbn [append]; now f_equal | exact Ht].
Qed.

Lemma run_before_app (user rest : string) :
  slash_free user = true -> ends_segment rest = true ->
  run_before "/" (user ++ rest) = user.
Proof.
  intros Huser Hrest. induction user as [|c user IH].
  - destruct rest as [|c rest]; [reflexivity|].
    cbn [append run_before]. cbn [ends_segment] in Hrest. now rewrite Hrest.
  - cbn [slash_free] in Huser. apply andb_true_iff in Huser as [Hc Huser].
    cbn [append run_before]. apply negb_true_iff in Hc. rewrite Hc.
    now rewrite IH.
Qed.

(** A match decomposes the text. *)
Lemma search_segment_found (lit : string) :
  forall s group,
    search_segment lit s = Some group ->
    exists before rest,
      s = before ++ lit ++ group ++ rest
      /\ group <> EmptyString
      /\ slash_free group = true
      /\ ends_segment rest = true.
Proof.
  assert (Hhere : forall s group,
             match after_literal lit s with
             | Some tail =>
                 match run_before "/" tail with
                 | EmptyString => None
                 | g => Some g
                 end
             | None => None
             end = Some group ->
             exists rest,
               s = lit ++ group ++ rest
               /\ group <> EmptyString
               /\ slash_free group = true
               /\ ends_segment rest = true).
  { intros s group Hs.
    destruct (after_literal lit s) as [tail|] eqn:Etail; [|discriminate].
    apply after_literal_inv in Etail as ->.
    destruct (run_before_split tail) as (rest & Htail & Hrest).
    pose proof (run_before_slash_free tail) as Hfree.
    destruct (run_before "/" tail) as [|c g] eqn:Erun; [discriminate|].
    injection Hs as <-. exists rest. rewrite Htail at 1.
    repeat split; [discriminate | exact Hfree | exact Hrest]. }
  induction s as [|c s IH]; intros group Hs; cbn [search_segment] in Hs.
  - destruct (match after_literal lit EmptyString with
              | Some tail => _
              | None => None
              end) eqn:E; [|discriminate].
    injection Hs as ->. apply Hhere in E as (rest & H1 & H2).
    exists EmptyString, rest. now split.
  - destruct (match after_literal lit (String c s) with
              | Some tail => _
              | None => None
              end) eqn:E.
    + injection Hs as ->. apply Hhere in E as (rest & H1 & H2).
      exists EmptyString, rest. now split.
    + apply IH in Hs as (before & rest & -> & H2).
      exists (String c before), rest. now split.
Qed.

Lemma contains_app (lit before rest : string) :
  PyStr.contains lit (before ++ lit ++ rest) = true.
Proof.
  induction before as [|c before IH].
  - cbn [append]. destruct (lit ++ rest) eqn:E; cbn [PyStr.contains];
      rewrite <- E, prefix_app; reflexivity.
  - cbn [append PyStr.contains]. rewrite IH. apply orb_true_r.
Qed.

(** A text without a slash holds no match of a literal with one. *)
Lemma search_segment_slash_free (lit s : string) :
  slash_free lit = false -> slash_free s = true -> search_segment lit s = None.
Proof.
  intros Hlit Hs. destruct (search_segment lit s) as [group|] eqn:E; [|reflexivity].
  apply search_segment_found in E as (before & rest & -> & _).
  rewrite !slash_free_app, Hlit in Hs. cbn in Hs.
  now rewrite andb_false_r in Hs.
Qed.

Lemma prefix_app_long (a : string) :
  forall b x, (String.length a <= String.length b)%nat ->
              prefix a (b ++ x) = prefix a b.
Proof.
  induction a as [|c a IH]; intros b x Hlen.
  - now rewrite !prefix_empty.
  - destruct b as [|d b]; [cbn in Hlen; lia|].
    cbn [append prefix]. destruct (ascii_dec c d); [|reflexivity].
    apply IH. cbn in Hlen. lia.
Qed.

Lemma after_literal_prefix (lit : string) :
  forall s t, after_literal lit s = Some t -> prefix lit s = true.
Proof.
  intros s t Hs. apply after_literal_inv in Hs as ->. apply prefix_app.
Qed.

Lemma string_length_app (a b : string) :
  String.length (a ++ b) = (String.length a + String.length b)%nat.
Proof. induction a as [|c a IH]; cbn; [reflexivity | now rewrite IH]. Qed.

Lemma search_segment_here (lit s tail : string) (c : ascii) (group : string) :
  after_literal lit s = Some tail ->
  run_before "/" tail = String c group ->
  search_segment lit s = Some (String c group).
Proof.
  intros Htail Hrun. destruct s; cbn [search_segment]; now rewrite Htail, Hrun.
Qed.

Lemma search_segment_later (lit : string) (c : ascii) (s : string) :
  after_literal lit (String c s) = None ->
  search_segment lit (String c s) = search_segment lit s.
Proof. intros Hnone. cbn [search_segment]. now rewrite Hnone. Qed.

(** The first place where the literal stands decides, when a segment
    follows it. *)
Lemma search_segment_first (body before user rest : string) :
  PyStr.contains (body ++ "/") (before ++ body) = false ->
  user <> EmptyString -> slash_free user = true -> ends_segment rest = true ->
  search_segment (body ++ "/") (before ++ (body ++ "/") ++ user ++ rest) = Some user.
Proof.
  intros Hfirst Huser Hfree Hrest. induction before as [|c before IH].
  - cbn [append]. destruct user as [|u user]; [now elim Huser|].
    apply (search_segment_here _ _ (String u user ++ rest)).
    + apply after_literal_app.
    + now apply run_before_app.
  - cbn [append PyStr.contains] in Hfirst.
    apply orb_false_iff in Hfirst as [Hhere Hlater].
    cbn [append]. rewrite search_segment_later; [now apply IH|].
    destruct (after_literal (body ++ "/")
                (String c (before ++ (body ++ "/") ++ user ++ rest))) as [tail|] eqn:E;
      [|reflexivity].
    apply after_literal_prefix in E.
    replace (String c (before ++ (body ++ "/") ++ user ++ rest))
      with (String c (before ++ body) ++ ("/" ++ user ++ rest)) in E
      by (cbn [append]; f_equal; now rewrite !append_assoc).
    rewrite prefix_app_long in E.
    + cbn [append] in E. congruence.
    + cbn [append String.length]. rewrite !string_length_app. cbn. lia.
Qed.

(** ** [github_username] and [linkedin_username] *)

Lemma github_username_some (url : string) :
  github_username (Some url)
  = match search_segment "github.com/" url with
    | Some group => group
    | None => url
    end.
Proof. destruct url; reflexivity. Qed.

Lemma linkedin_username_some (url : string) :
  linkedin_username (Some url)
  = match search_segment "linkedin.com/in/" url with
    | Some group => group
    | None => url
    end.
Proof. destruct url; reflexivity. Qed.

Lemma search_segment_absent (lit s : string) :
  PyStr.contains lit s = false -> search_segment lit s = None.
Proof.
  intros Habsent. destruct (search_segment lit s) as [group|] eqn:E; [|reflexivity].
  apply search_segment_found in E as (before & rest & -> & _).
  now rewrite contains_app in Habsent.
Qed.

(** X1: when the first [github.com/] of a URL is followed by a non-empty
    segment without a slash, which ends the text or is followed by a
    slash, [github_username] returns that segment. *)
Theorem github_username_extracts (before user rest : string) :
  PyStr.contains "github.com/" (before ++ "github.com") = false ->
  user <> EmptyString -> slash_free user = true -> ends_segment rest = true ->
  github_username (Some (before ++ "github.com/" ++ user ++ rest)) = user.
Proof.
  intros Hfirst Huser Hfree Hrest. rewrite github_username_some.
  change (search_segment "github.com/" (before ++ "github.com/" ++ user ++ rest))
    with (search_segment ("github.com" ++ "/")
                         (before ++ ("github.com" ++ "/") ++ user ++ rest)).
  now rewrite (search_segment_first "github.com" before user rest).
Qed.

Lemma github_username_extracts_witness :
  github_username (Some ("https://" ++ "github.com/" ++ "alice" ++ "/repo")) = "alice".
Proof.
  apply (github_username_extracts "https://" "alice" "/repo").
  - reflexivity.
  - discriminate.
  - reflexivity.
  - reflexivity.
Defined.

(** X2: a text in which [github.com/] does not occur is returned as it
    is. *)
Theorem github_username_unchanged (url : string) :
  PyStr.contains "github.com/" url = false -> github_username (Some url) = url.
Proof.
  intros Habsent. rewrite github_username_some.
  now rewrite (search_segment_absent _ _ Habsent).
Qed.

Lemma github_username_unchanged_witness : github_username (Some "alice") = "alice".
Proof. apply (github_username_unchanged "alice"). reflexivity. Defined.

(** X3: [github_username] either returns its argument, or a non-empty
    text without a slash that stands in the argument right after
    [github.com/] and is followed there by a slash or by the end. *)
Theorem github_username_result (url : string) :
  github_username (Some url) = url
  \/ exists before rest,
      url = before ++ "github.com/" ++ github_username (Some url) ++ rest
      /\ github_username (Some url) <> EmptyString
      /\ slash_free (github_username (Some url)) = true
      /\ ends_segment rest = true.
Proof.
  rewrite github_username_some.
  destruct (search_segment "github.com/" url) as [group|] eqn:E; [|now left].
  right. exact (search_segment_found _ _ _ E).
Qed.

(** X4: both filters are idempotent: a user name that was extracted is
    left alone by a second application. *)
Theorem username_filters_idempotent (url : option string) :
  github_username (Some (github_username url)) = github_username url
  /\ linkedin_username (Some (linkedin_username url)) = linkedin_username url.
Proof.
  destruct url as [url|]; [|split; reflexivity]. split.
  - rewrite !github_username_some.
    destruct (search_segment "github.com/" url) as [group|] eqn:E.
    + apply search_segment_found in E as (_ & _ & _ & _ & Hfree & _).
      now rewrite (search_segment_slash_free "github.com/" group eq_refl Hfree).
    + now rewrite E.
  - rewrite !linkedin_username_some.
    destruct (search_segment "linkedin.com/in/" url) as [group|] eqn:E.
    + apply search_segment_found in E as (_ & _ & _ & _ & Hfree & _).
      now rewrite (search_segment_slash_free "linkedin.com/in/" group eq_refl Hfree).
    + now rewrite E.
Qed.

(** X5: when the first [linkedin.com/in/] of a URL is followed by a
    non-empty segment without a slash, which ends the text or is followed
    by a slash, [linkedin_username] returns that segment. *)
Theorem linkedin_username_extracts (before user rest : string) :
  PyStr.contains "linkedin.com/in/" (before ++ "linkedin.com/in") = false ->
  user <> EmptyString -> slash_free user = true -> ends_segment rest = true ->
  linkedin_username (Some (before ++ "linkedin.com/in/" ++ user ++ rest)) = user.
Proof.
  intros Hfirst Huser Hfree Hrest. rewrite linkedin_username_some.
  change (search_segment "linkedin.com/in/"
                         (before ++ "linkedin.com/in/" ++ user ++ rest))
    with (search_segment ("linkedin.com/in" ++ "/")
                         (before ++ ("linkedin.com/in" ++ "/") ++ user ++ rest)).
  now rewrite (search_segment_first "linkedin.com/in" before user rest).
Qed.

Lemma linkedin_username_extracts_witness :
  linkedin_username
    (Some ("https://www." ++ "linkedin.com/in/" ++ "ada-lovelace" ++ "/"))
  = "ada-lovelace".
Proof.
  apply (linkedin_username_extracts "https://www." "ada-lovelace" "/").
  - reflexivity.
  - discriminate.
  - reflexivity.
  - reflexivity.
Defined.

(** X6: [linkedin_username] returns a text in which [linkedin.com/in/]
    does not occur as it is (a company page, for one); otherwise its
    result is its argument or a non-empty text without a slash standing
    right after [linkedin.com/in/]. *)
Theorem linkedin_username_result (url : string) :
  (PyStr.contains "linkedin.com/in/" url = false -> linkedin_username (Some url) = url)
  /\ (linkedin_username (Some url) = url
      \/ exists before rest,
          url = before ++ "linkedin.com/in/" ++ linkedin_username (Some url) ++ rest
          /\ linkedin_username (Some url) <> EmptyString
          /\ slash_free (linkedin_username (Some url)) = true
          /\ ends_segment rest = true).
Proof.
  rewrite linkedin_username_some. split.
  - intros Habsent. now rewrite (search_segment_absent _ _ Habsent).
  - destruct (search_segment "linkedin.com/in/" url) as [group|] eqn:E; [|now left].
    right. exact (search_segment_found _ _ _ E).
Qed.

Lemma linkedin_username_result_witness :
  linkedin_username (Some "https://www.linkedin.com/company/acme")
  = "https://www.linkedin.com/company/acme".
Proof.
  apply (proj1 (linkedin_username_result "https://www.linkedin.com/company/acme")).
  reflexivity.
Defined.

(** ** [latex_escape], character by character *)

Ltac each_char c :=
  let b0 := fresh "b" in let b1 := fresh "b" in let b2 := fresh "b" in
  let b3 := fresh "b" in let b4 := fresh "b" in let b5 := fresh "b" in
  let b6 := fresh "b" in let b7 := fresh "b" in
  destruct c as [b0 b1 b2 b3 b4 b5 b6 b7];
  destruct b0, b1, b2, b3, b4, b5, b6, b7.

Lemma emitted_plain (c : ascii) : is_special c = false -> emitted c = PyStr.char c.
Proof. each_char c; intros Hc; try reflexivity; discriminate Hc. Qed.

Lemma emitted_length (c : ascii) :
  ((if is_special c then 2 else 1) <= String.length (emitted c))%nat.
Proof. each_char c; vm_compute; lia. Qed.

Lemma emitted_has_special (c : ascii) :
  is_special c = true -> has_special (emitted c) = true.
Proof. each_char c; intros Hc; try reflexivity; discriminate Hc. Qed.

Lemma has_special_app (a b : string) :
  has_special (a ++ b) = has_special a || has_special b.
Proof.
  induction a as [|c a IH]; [reflexivity|].
  cbn [append has_special]. rewrite IH. apply orb_assoc.
Qed.

Lemma expand_length (s : string) :
  (String.length s <= String.length (expand emitted s))%nat
  /\ (has_special s = true ->
      (String.length s < String.length (expand emitted s))%nat).
Proof.
  induction s as [|c s [IHle IHlt]]; [split; [reflexivity | discriminate]|].
  cbn [expand has_special String.length]. rewrite string_length_app.
  pose proof (emitted_length c) as Hc.
  destruct (is_special c); cbn [orb]; split; try lia.
  intros Hs. specialize (IHlt Hs). lia.
Qed.

Lemma expand_plain (s : string) : has_special s = false -> expand emitted s = s.
Proof.
  induction s as [|c s IH]; [reflexivity|].
  cbn [has_special expand]. intros [Hc Hs]%orb_false_iff.
  now rewrite (emitted_plain c Hc), (IH Hs).
Qed.

Lemma expand_has_special (s : string) :
  has_special s = true -> has_special (expand emitted s) = true.
Proof.
  induction s as [|c s IH]; [discriminate|].
  cbn [has_special expand]. rewrite has_special_app.
  intros [Hc | Hs]%orb_true_iff.
  - now rewrite (emitted_has_special c Hc).
  - rewrite (IH Hs). apply orb_true_r.
Qed.

(** X7: [latex_escape] works character by character: the escape of a
    concatenation is the concatenation of the escapes, and the escape of a
    text is made of the sequence emitted for each of its characters, the
    character itself when it has no rule. *)
Theorem latex_escape_by_character :
  (forall a b,
      latex_escape (Some (a ++ b)) = latex_escape (Some a) ++ latex_escape (Some b))
  /\ (forall s, latex_escape (Some s) = expand emitted s)
  /\ (forall c, is_special c = false -> emitted c = PyStr.char c)
  /\ (forall c, is_special c = true -> c <> "\"%char -> emitted c = designated c).
Proof.
  split; [exact latex_escape_app|]. split; [exact latex_escape_expand|].
  split; [exact emitted_plain|]. intros c _. apply emitted_designated.
Qed.

(** X8: the texts [latex_escape] returns unchanged are exactly those
    without a character that has a rule. *)
Theorem latex_escape_fixed_points (s : string) :
  latex_escape (Some s) = s <-> has_special s = false.
Proof.
  rewrite latex_escape_expand. split.
  - intros Hfixed. destruct (has_special s) eqn:E; [|reflexivity].
    apply expand_length in E. rewrite Hfixed in E. lia.
  - apply expand_plain.
Qed.

(** X9: escaping twice is escaping once only for texts without a
    character that has a rule: otherwise the second pass escapes what the
    first has put in. *)
Theorem latex_escape_twice (s : string) :
  latex_escape (Some (latex_escape (Some s))) = latex_escape (Some s)
  <-> has_special s = false.
Proof.
  rewrite latex_escape_fixed_points, latex_escape_expand. split.
  - intros Hnone. destruct (has_special s) eqn:E; [|reflexivity].
    apply expand_has_special in E. congruence.
  - intros Hs. now rewrite (expand_plain s Hs).
Qed.

Lemma contains_char_emitted (c x : ascii) (t : string) :
  c = "~"%char \/ c = "^"%char \/ c = "<"%char \/ c = ">"%char ->
  PyStr.contains (PyStr.char c) (emitted x ++ t) = PyStr.contains (PyStr.char c) t.
Proof.
  intros [-> | [-> | [-> | ->]]]; each_char x; destruct t; reflexivity.
Qed.

(** X10: the result of [latex_escape] holds none of the characters
    [~], [^], [<] and [>]. *)
Theorem latex_escape_removes (text : option string) (c : ascii) :
  c = "~"%char \/ c = "^"%char \/ c = "<"%char \/ c = ">"%char ->
  PyStr.contains (PyStr.char c) (latex_escape text) = false.
Proof.
  intros Hc. destruct text as [s|].
  - rewrite latex_escape_expand. induction s as [|x s IH].
    + destruct Hc as [-> | [-> | [-> | ->]]]; reflexivity.
    + cbn [expand]. now rewrite contains_char_emitted.
  - destruct Hc as [-> | [-> | [-> | ->]]]; reflexivity.
Qed.

Lemma latex_escape_removes_witness :
  PyStr.contains "~" (latex_escape (Some "a~b <c> d^2")) = false.
Proof. apply (latex_escape_removes (Some "a~b <c> d^2") "~"%char). now left. Defined.

Lemma unguarded_emitted (c x : ascii) (t : string) :
  c = "&"%char \/ c = "%"%char \/ c = "$"%char \/ c = "#"%char \/ c = "_"%char ->
  unguarded c false (emitted x ++ t) = unguarded c false t.
Proof.
  intros [-> | [-> | [-> | [-> | ->]]]]; each_char x; reflexivity.
Qed.

(** X11: in the result of [latex_escape] each of [&], [%], [$], [#] and
    [_] stands only right after a backslash. *)
Theorem latex_escape_guards (text : option string) (c : ascii) :
  c = "&"%char \/ c = "%"%char \/ c = "$"%char \/ c = "#"%char \/ c = "_"%char ->
  unguarded c false (latex_escape text) = false.
Proof.
  intros Hc. destruct text as [s|]; [|reflexivity].
  rewrite latex_escape_expand. induction s as [|x s IH]; [reflexivity|].
  cbn [expand]. now rewrite unguarded_emitted.
Qed.

Lemma latex_escape_guards_witness :
  unguarded "&" false (latex_escape (Some "R&D 100% _x_")) = false.
Proof. apply (latex_escape_guards (Some "R&D 100% _x_") "&"%char). now left. Defined.

Lemma unescape_head_emitted (c : ascii) (t : string) :
  unescape_head (emitted c ++ t) = Some (c, t).
Proof. each_char c; reflexivity. Qed.

(** X12: [latex_escape] loses nothing: two texts with the same escape are
    the same text. *)
Theorem latex_escape_injective (s1 s2 : string) :
  latex_escape (Some s1) = latex_escape (Some s2) -> s1 = s2.
Proof.
  rewrite !latex_escape_expand. revert s2.
  induction s1 as [|c1 s1 IH]; intros [|c2 s2] Heq; cbn [expand] in Heq.
  - reflexivity.
  - apply (f_equal unescape_head) in Heq.
    rewrite unescape_head_emitted in Heq. discriminate.
  - apply (f_equal unescape_head) in Heq.
    rewrite unescape_head_emitted in Heq. discriminate.
  - apply (f_equal unescape_head) in Heq.
    rewrite !unescape_head_emitted in Heq. injection Heq as <- Heq.
    f_equal. now apply IH.
Qed.

Lemma latex_escape_injective_witness : "a&b" = "a&b".
Proof. apply (latex_escape_injective "a&b" "a&b"). reflexivity. Defined.

(** ** [format_duration]: what else it accepts and what it rejects *)

Lemma obind_ret {A B : Type} (a : A) (k : A -> outcome B) : obind (Ret a) k = k a.
Proof. reflexivity. Qed.

(** What follows the month is not looked at. *)
Lemma format_date_ignores_rest (y m : Z) (rest : string) :
  (0 <= y <= 9999)%Z -> (0 <= m <= 99)%Z ->
  format_date (yyyy_mm y m ++ "-" ++ rest) = format_date (yyyy_mm y m).
Proof.
  intros Hy Hm. rewrite (format_date_parts y m Hy Hm).
  unfold format_date, yyyy_mm.
  replace ((digits_string (yyyy y) ++ "-" ++ digits_string (mm m)) ++ "-" ++ rest)
    with (digits_string (yyyy y)
          ++ String "-" (digits_string (mm m) ++ String "-" rest))
    by (now rewrite !append_assoc).
  rewrite (split_digits_dash _ _ (yyyy_digits y)), (split_digits_dash _ _ (mm_digits m)).
  change (list_index (digits_string (yyyy y) :: digits_string (mm m) :: PyStr.split "-" rest) 0)
    with (Ret (A := string) (digits_string (yyyy y))).
  rewrite obind_ret, (int_digits _ (yyyy_digits y)), obind_ret
    by first [discriminate | exact (proj1 (yyyy_mm_short y m))].
  replace (list_index (digits_string (yyyy y) :: digits_string (mm m) :: PyStr.split "-" rest) 1)
    with (Ret (A := string) (digits_string (mm m))) by reflexivity.
  rewrite obind_ret, (int_digits _ (mm_digits m)), obind_ret
    by first [discriminate | exact (proj2 (yyyy_mm_short y m))].
  now rewrite (yyyy_value y Hy), (mm_value m Hm), (str_int_small y Hy).
Qed.

Lemma yyyy_mm_not_empty (y m : Z) (rest : string) :
  (exists c tail, yyyy_mm y m ++ rest = String c tail)
  /\ exists c tail, yyyy_mm y m = String c tail.
Proof. unfold yyyy_mm, yyyy. cbn [map digits_string append]. split; eauto. Qed.

(** X13: a full date is accepted and its day ignored: after [YYYY-MM]
    anything may follow a second dash, in the start date and in the end
    date, without changing the result. *)
Theorem format_duration_ignores_day (y m y' m' : Z) (day day' : string) :
  (0 <= y <= 9999)%Z -> (0 <= m <= 99)%Z ->
  (0 <= y' <= 9999)%Z -> (0 <= m' <= 99)%Z ->
  format_duration (yyyy_mm y m ++ "-" ++ day) (Some (yyyy_mm y' m' ++ "-" ++ day'))
  = format_duration (yyyy_mm y m) (Some (yyyy_mm y' m'))
  /\ format_duration (yyyy_mm y m ++ "-" ++ day) None
     = format_duration (yyyy_mm y m) None.
Proof.
  intros Hy Hm Hy' Hm'. unfold format_duration.
  rewrite (format_date_ignores_rest y m day Hy Hm). split; [|reflexivity].
  destruct (yyyy_mm_not_empty y' m' ("-" ++ day')) as [(c & tail & E) (c0 & tail0 & E0)].
  rewrite E, E0. cbv iota. rewrite <- E, <- E0.
  now rewrite (format_date_ignores_rest y' m' day' Hy' Hm').
Qed.

Lemma format_duration_ignores_day_witness :
  format_duration (yyyy_mm 2022 5 ++ "-" ++ "17") None
  = format_duration (yyyy_mm 2022 5) None.
Proof.
  apply (format_duration_ignores_day 2022 5 2024 8 "17" "01"); lia.
Defined.

(** X14: a month from 13 to 99 makes the call raise [IndexError], in the
    start date whatever the end date is, and in the end date after a
    well-formed start date; month [00] is taken for December. *)
Theorem format_duration_month_range (y m : Z) (end_date : option string) :
  (0 <= y <= 9999)%Z -> (13 <= m <= 99)%Z ->
  format_duration (yyyy_mm y m) end_date = Raise IndexError
  /\ (forall y0 m0,
         (0 <= y0 <= 9999)%Z -> (1 <= m0 <= 12)%Z ->
         format_duration (yyyy_mm y0 m0) (Some (yyyy_mm y m)) = Raise IndexError)
  /\ format_duration (yyyy_mm y 0) None
     = Ret ("Dec " ++ PyStr.of_int y ++ " -- Present").
Proof.
  intros Hy Hm. unfold format_duration. split; [|split].
  - now rewrite (format_date_month_too_large y m Hy Hm).
  - intros y0 m0 Hy0 Hm0. rewrite (format_date_well_formed y0 m0 Hy0 Hm0).
    rewrite obind_ret.
    destruct (yyyy_mm_not_empty y m EmptyString) as [_ (c & tail & E)].
    rewrite E. cbv iota. rewrite <- E.
    now rewrite (format_date_month_too_large y m Hy Hm).
  - now rewrite (format_date_month_zero y Hy).
Qed.

Lemma format_duration_month_range_witness :
  format_duration (yyyy_mm 2022 13) (Some "2024-08") = Raise IndexError.
Proof. apply (format_duration_month_range 2022 13 (Some "2024-08")); lia. Defined.

Lemma split_without_separator (s : string) :
  PyStr.contains "-" s = false -> PyStr.split "-" s = [s].
Proof.
  unfold PyStr.split. induction s as [|c s IH]; [reflexivity|].
  cbn [PyStr.contains]. intros [Hhere Hlater]%orb_false_iff.
  cbn [PyStr.split_from]. now rewrite Hhere, (IH Hlater).
Qed.

Lemma int_raises (s : string) (e : exn) : PyStr.int s = Raise e -> e = ValueError.
Proof.
  unfold PyStr.int, PyStr.int_body.
  assert (Hbody : forall sign digits,
             match PyStr.parse_digits false 0 0 digits with
             | Some (v, count) =>
                 if (count <=? PyStr.int_max_str_digits)%nat then Ret (sign * v)%Z
                 else Raise ValueError
             | None => Raise ValueError
             end = Raise e -> e = ValueError).
  { intros sign digits.
    destruct (PyStr.parse_digits false 0 0 digits) as [[v n]|];
      [destruct (n <=? PyStr.int_max_str_digits)%nat; [discriminate|]|];
      now intros [= <-]. }
  destruct (PyStr.strip s) as [|c digits]; [apply Hbody|].
  each_char c; apply Hbody.
Qed.

(** X15: a date without a dash never formats: the call raises
    [ValueError] when the text is not a number and [IndexError], for the
    missing month, when it is one. *)
Theorem format_duration_without_dash (start_date : string) (end_date : option string) :
  PyStr.contains "-" start_date = false ->
  format_duration start_date end_date
  = match PyStr.int start_date with
    | Ret _ => Raise IndexError
    | Raise _ => Raise ValueError
    end.
Proof.
  intros Hdash. unfold format_duration, format_date.
  rewrite (split_without_separator _ Hdash).
  change (list_index [start_date] 0) with (Ret (A := string) start_date).
  rewrite obind_ret.
  destruct (PyStr.int start_date) as [year|e] eqn:E; [reflexivity|].
  now rewrite (int_raises _ _ E).
Qed.

Lemma format_duration_without_dash_witness :
  format_duration "2022" None = Raise IndexError
  /\ format_duration "May 2022" None = Raise ValueError.
Proof.
  split.
  - apply (format_duration_without_dash "2022" None). reflexivity.
  - apply (format_duration_without_dash "May 2022" None). reflexivity.
Defined.

(** ** [join_tech]: arguments it was not written for *)

Section JoinTechEdges.

Context {F : Type} `{PyFloat F}.

Lemma as_strings_not_string (items : list (value F)) (x : value F) :
  In x items -> is_string x = false -> as_strings items = Raise TypeError.
Proof.
  intros Hin Hx. induction items as [|y items IH]; [now elim Hin|].
  destruct Hin as [-> | Hin].
  - destruct x; try reflexivity. discriminate Hx.
  - specialize (IH Hin). destruct y; try reflexivity.
    cbn [as_strings]. now rewrite IH.
Qed.

(** X16: a record whose [name] is neither a string nor falsy (a number,
    a list, a non-empty record) makes [join_tech] raise [TypeError],
    whatever else the list holds. *)
Theorem join_tech_name_not_string
        (pre post : list (value F)) (fields : dict F) (v : value F) :
  dict_get fields "name" = Some v -> truthy v = true -> is_string v = false ->
  join_tech (VList (pre ++ VDict fields :: post)) = Raise TypeError.
Proof.
  intros Hname Htrue Hstring. unfold join_tech.
  assert (Hlist : truthy (VList (pre ++ VDict fields :: post)) = true)
    by now destruct pre.
  rewrite Hlist. cbn [negb py_iter obind]. unfold py_join.
  rewrite (as_strings_not_string _ v); [reflexivity | | exact Hstring].
  apply filter_In. split; [|exact Htrue].
  apply in_map_iff. exists (VDict fields). split.
  - cbn [tech_name]. now rewrite Hname.
  - apply in_or_app. right. now left.
Qed.

Lemma as_strings_chars (cs : list ascii) :
  as_strings (filter truthy
                (map tech_name (map (fun c => VStr (F := F) (PyStr.char c)) cs)))
  = Ret (map PyStr.char cs).
Proof.
  induction cs as [|c cs IH]; [reflexivity|].
  cbn [map tech_name py_str filter truthy PyStr.char String.eqb negb as_strings].
  cbn [map tech_name py_str PyStr.char] in IH. now rewrite IH.
Qed.

(** X17: a string given in place of the list is taken apart: [join_tech]
    joins its characters with [", "]. *)
Theorem join_tech_of_string (s : string) :
  join_tech (VStr (F := F) s)
  = Ret (PyStr.join ", " (map PyStr.char (list_ascii_of_string s))).
Proof.
  destruct s as [|c s]; [reflexivity|].
  unfold join_tech. cbn [truthy String.eqb negb py_iter obind]. unfold py_join.
  now rewrite as_strings_chars.
Qed.

(** X18: for a value that is no string, list or record, [join_tech]
    returns the empty string when the value is falsy ([None], [False],
    zero) and raises [TypeError] when it is not. *)
Theorem join_tech_of_scalar (v : value F) :
  is_container v = false ->
  join_tech v = if truthy v then Raise TypeError else Ret EmptyString.
Proof.
  intros Hv. unfold join_tech.
  destruct v as [| b | z | f | s | items | fields]; try discriminate Hv;
    cbn [py_iter obind]; now destruct (truthy _).
Qed.

End JoinTechEdges.

Lemma join_tech_name_not_string_witness :
  join_tech (F := Sample.flt)
            (VList ([VStr "Go"] ++ VDict [("name", VInt 5)] :: [VStr "Rust"]))
  = Raise TypeError.
Proof.
  apply (join_tech_name_not_string (F := Sample.flt)
           [VStr "Go"] [VStr "Rust"] [("name", VInt 5)] (VInt 5));
    reflexivity.
Defined.

Lemma join_tech_of_scalar_witness :
  join_tech (F := Sample.flt) (VInt 7) = Raise TypeError.
Proof. apply (join_tech_of_scalar (F := Sample.flt) (VInt 7)). reflexivity. Defined.

(** ** The loader: what the context holds and when loading fails *)

Section LoaderContents.

Context {F : Type} `{PyFloat F} `{Platform F}.

Lemma config_files_keys_distinct : NoDup (map fst config_files).
Proof.
  unfold config_files. cbn [map fst].
  repeat (apply NoDup_cons; [cbn [In]; intuition discriminate|]).
  apply NoDup_nil.
Qed.

(** A run of the loop that returns has stored each parsed document under
    the key of its file and has left the other keys alone. *)
Lemma load_config_files_values (data_dir : path) (entries : list (string * string)) :
  forall (context context' : dict F) (w w' : world),
    NoDup (map fst entries) ->
    load_config_files data_dir entries context w = (Ret context', w') ->
    (forall key filename text document,
        In (key, filename) entries ->
        files w (joinpath data_dir filename) = Some (File text) ->
        json_loads text = inl document ->
        dict_get context' key = Some document)
    /\ (forall k, ~ In k (map fst entries) -> dict_get context' k = dict_get context k).
Proof.
  induction entries as [|[key filename] entries IH];
    intros context context' w w' Hdistinct Hrun.
  - cbn in Hrun. injection Hrun as <- <-. split; [intros ? ? ? ? []|reflexivity].
  - cbn [map fst] in Hdistinct. inversion Hdistinct as [|? ? Hfresh Hrest]; subst.
    cbn [load_config_files] in Hrun. unfold bind at 1, path_exists in Hrun.
    destruct (files w (joinpath data_dir filename)) as [[text|]|] eqn:Efile.
    + unfold bind at 1, load_json_file in Hrun. rewrite Efile in Hrun.
      destruct (json_loads text) as [document|e] eqn:Ejson;
        [|cbn in Hrun; discriminate].
      destruct (IH _ _ _ _ Hrest Hrun) as [Hvalues Hother]. split.
      * intros k fn t d [Heq | Hin] Hfile Hjson.
        -- injection Heq as <- <-. rewrite (Hother key Hfresh), dict_get_set_same.
           congruence.
        -- exact (Hvalues k fn t d Hin Hfile Hjson).
      * intros k Hk. cbn [map fst In] in Hk.
        rewrite Hother by tauto. apply dict_get_set_other. tauto.
    + unfold bind at 1, load_json_file in Hrun. rewrite Efile in Hrun. discriminate.
    + destruct (IH _ _ _ _ Hrest Hrun) as [Hvalues Hother]. split.
      * intros k fn t d [Heq | Hin] Hfile Hjson.
        -- injection Heq as <- <-. congruence.
        -- exact (Hvalues k fn t d Hin Hfile Hjson).
      * intros k Hk. cbn [map fst In] in Hk. apply Hother. tauto.
Qed.

(** The loop returns when every file that is there is a file that
    parses. *)
Lemma load_config_files_returns (data_dir : path) (w : world)
      (entries : list (string * string)) :
  (forall key filename,
      In (key, filename) entries ->
      files w (joinpath data_dir filename) = None
      \/ exists text document,
          files w (joinpath data_dir filename) = Some (File text)
          /\ json_loads text = inl document) ->
  forall context : dict F,
  exists context', load_config_files data_dir entries context w = (Ret context', w).
Proof.
  induction entries as [|[key filename] entries IH]; intros Hfiles context.
  - now exists context.
  - cbn [load_config_files]. unfold bind at 1, path_exists.
    assert (Hrest : forall k fn,
               In (k, fn) entries ->
               files w (joinpath data_dir fn) = None
               \/ exists text document,
                   files w (joinpath data_dir fn) = Some (File text)
                   /\ json_loads text = inl document)
      by (intros k fn Hin; apply (Hfiles k fn); now right).
    destruct (Hfiles key filename (or_introl eq_refl))
      as [Hnone | (text & document & Hfile & Hjson)].
    + rewrite Hnone. now apply IH.
    + rewrite Hfile. unfold bind at 1, load_json_file. rewrite Hfile, Hjson.
      now apply IH.
Qed.

Lemma promote_raises_type_error (source subkey target : string)
      (context : dict F) (e : exn) :
  promote source subkey target context = Raise e -> e = TypeError.
Proof.
  unfold promote. destruct (dict_get context source) as [document|]; [|discriminate].
  destruct document as [| b | z | f | s | items | fields];
    cbn [py_in obind py_getitem]; try (now intros [= <-]).
  - destruct (PyStr.contains subkey s); [now intros [= <-] | discriminate].
  - destruct (existsb _ items); [now intros [= <-] | discriminate].
  - unfold dict_has. destruct (dict_get fields subkey); cbn; discriminate.
Qed.

Lemma promote_scalar (source subkey target : string) (context : dict F)
      (document : value F) :
  dict_get context source = Some document -> is_container document = false ->
  promote source subkey target context = Raise TypeError.
Proof.
  intros Hsource Hscalar. unfold promote. rewrite Hsource.
  now destruct document.
Qed.

(** X19: loading the configs never changes a file, and a load that
    returns a context has printed nothing. *)
Theorem load_all_configs_quiet (data_dir : path) (w : world) :
  files (snd (load_all_configs data_dir w)) = files w
  /\ forall context,
      fst (load_all_configs data_dir w) = Ret context ->
      snd (load_all_configs data_dir w) = w.
Proof.
  destruct (load_all_configs data_dir w) as [r w'] eqn:Hrun. cbn [fst snd]. split.
  - exact (load_all_configs_files _ _ _ _ Hrun).
  - intros context ->.
    now apply load_all_configs_stages in Hrun as (_ & _ & _ & _ & _ & -> & _).
Qed.

(** X20: the keys of a context are among the seven names of the config
    files and the four promoted names. *)
Theorem load_all_configs_key_set (data_dir : path) (w w' : world)
        (context : dict F) (k : string) :
  load_all_configs data_dir w = (Ret context, w') ->
  dict_has context k = true ->
  In k (map fst config_files ++ map snd promotions)%list.
Proof.
  intros Hrun Hk.
  apply load_all_configs_stages in Hrun
    as (c0 & c1 & c2 & c3 & Hload & -> & H1 & H2 & H3 & H4).
  apply load_config_files_keys in Hload as [_ Hkeys].
  apply promote_effect in H1 as [K1 _], H2 as [K2 _], H3 as [K3 _], H4 as [K4 _].
  apply in_or_app.
  destruct (string_dec k "experience") as [->|N1]; [right; cbn; tauto|].
  destruct (string_dec k "projects") as [->|N2]; [right; cbn; tauto|].
  destruct (string_dec k "skills") as [->|N3]; [right; cbn; tauto|].
  destruct (string_dec k "education") as [->|N4]; [right; cbn; tauto|].
  left. unfold dict_has in Hk, Hkeys.
  rewrite K4, K3, K2, K1 in Hk by assumption.
  apply Hkeys in Hk as [Hk | (fn & Hin & _)]; [discriminate|].
  apply in_map_iff. now exists (k, fn).
Qed.

(** X21: under the key of a config file the context holds the document
    the file parses to. *)
Theorem load_all_configs_documents (data_dir : path) (w w' : world)
        (context : dict F) (key filename text : string) (document : value F) :
  load_all_configs data_dir w = (Ret context, w') ->
  In (key, filename) config_files ->
  files w (joinpath data_dir filename) = Some (File text) ->
  json_loads text = inl document ->
  dict_get context key = Some document.
Proof.
  intros Hrun Hin Hfile Hjson.
  apply load_all_configs_stages in Hrun
    as (c0 & c1 & c2 & c3 & Hload & -> & H1 & H2 & H3 & H4).
  apply (load_config_files_values _ _ _ _ _ _ config_files_keys_distinct) in Hload
    as [Hvalues _].
  apply promote_effect in H1 as [K1 _], H2 as [K2 _], H3 as [K3 _], H4 as [K4 _].
  rewrite <- (Hvalues key filename text document Hin Hfile Hjson).
  unfold config_files in Hin. cbn [In] in Hin.
  repeat (destruct Hin as [Hin | Hin];
          [injection Hin as <- <-; rewrite K4, K3, K2, K1 by discriminate; reflexivity|]).
  contradiction.
Qed.

(** X22: when the files that are there all parse and the document of a
    promotion rule is no string, list or record (a number, a boolean,
    [null]), loading raises [TypeError] and prints nothing. *)
Theorem load_all_configs_scalar_document
        (data_dir : path) (w : world)
        (source subkey target filename text : string) (document : value F) :
  (forall key fn,
      In (key, fn) config_files ->
      files w (joinpath data_dir fn) = None
      \/ exists t d,
          files w (joinpath data_dir fn) = Some (File t) /\ json_loads t = inl d) ->
  In (source, subkey, target) promotions ->
  In (source, filename) config_files ->
  files w (joinpath data_dir filename) = Some (File text) ->
  json_loads text = inl document ->
  is_container document = false ->
  load_all_configs data_dir w = (Raise TypeError, w).
Proof.
  intros Hfiles Hrule Hin Hfile Hjson Hscalar.
  destruct (load_config_files_returns data_dir w config_files Hfiles [])
    as (c0 & Hload).
  pose proof (load_config_files_values _ _ _ _ _ _ config_files_keys_distinct Hload)
    as [Hvalues _].
  pose proof (Hvalues source filename text document Hin Hfile Hjson) as Hsource.
  unfold load_all_configs, bind, lift, ret. rewrite Hload.
  unfold promotions in Hrule. cbn [In] in Hrule.
  destruct (promote "experience_data" "experience" "experience" c0)
    as [c1|e1] eqn:E1;
    [|now rewrite (promote_raises_type_error _ _ _ _ _ E1)].
  pose proof (promote_effect _ _ _ _ _ E1) as [K1 _].
  destruct (promote "projects_data" "projects" "projects" c1)
    as [c2|e2] eqn:E2;
    [|now rewrite (promote_raises_type_error _ _ _ _ _ E2)].
  pose proof (promote_effect _ _ _ _ _ E2) as [K2 _].
  destruct (promote "skills_data" "categories" "skills" c2)
    as [c3|e3] eqn:E3;
    [|now rewrite (promote_raises_type_error _ _ _ _ _ E3)].
  pose proof (promote_effect _ _ _ _ _ E3) as [K3 _].
  destruct (promote "education_data" "education" "education" c3)
    as [c4|e4] eqn:E4;
    [|now rewrite (promote_raises_type_error _ _ _ _ _ E4)].
  exfalso.
  destruct Hrule as [Hr | [Hr | [Hr | [Hr | []]]]]; injection Hr as <- <- <-.
  - now rewrite (promote_scalar _ _ _ c0 document) in E1.
  - rewrite (promote_scalar _ _ _ c1 document) in E2; [discriminate | | exact Hscalar].
    now rewrite K1 by discriminate.
  - rewrite (promote_scalar _ _ _ c2 document) in E3; [discriminate | | exact Hscalar].
    now rewrite K2, K1 by discriminate.
  - rewrite (promote_scalar _ _ _ c3 document) in E4; [discriminate | | exact Hscalar].
    now rewrite K3, K2, K1 by discriminate.
Qed.

End LoaderContents.

Lemma load_all_configs_quiet_witness :
  snd (load_all_configs (Path "/srv/resume/data") (Sample.start Sample.checkout))
  = Sample.start Sample.checkout.
Proof.
  apply (proj2 (load_all_configs_quiet (Path "/srv/resume/data")
                                       (Sample.start Sample.checkout))
           [ ("profile", VDict [("name", VStr "Ada")]);
             ("experience_data", VDict [("experience", VList [VStr "Acme"])]);
             ("education_data", VDict [("education", VList [VStr "MIT"])]);
             ("experience", VList [VStr "Acme"]);
             ("education", VList [VStr "MIT"]) ]).
  reflexivity.
Defined.

Lemma load_all_configs_key_set_witness :
  In "experience" (map fst config_files ++ map snd promotions)%list.
Proof.
  apply (load_all_configs_key_set
           (Path "/srv/resume/data") (Sample.start Sample.checkout)
           (Sample.start Sample.checkout)
           [ ("profile", VDict [("name", VStr "Ada")]);
             ("experience_data", VDict [("experience", VList [VStr "Acme"])]);
             ("education_data", VDict [("education", VList [VStr "MIT"])]);
             ("experience", VList [VStr "Acme"]);
             ("education", VList [VStr "MIT"]) ]
           "experience");
    reflexivity.
Defined.

Lemma load_all_configs_documents_witness :
  dict_get (F := Sample.flt)
           [ ("profile", VDict [("name", VStr "Ada")]);
             ("experience_data", VDict [("experience", VList [VStr "Acme"])]);
             ("education_data", VDict [("education", VList [VStr "MIT"])]);
             ("experience", VList [VStr "Acme"]);
             ("education", VList [VStr "MIT"]) ]
           "profile"
  = Some (VDict [("name", VStr "Ada")]).
Proof.
  apply (load_all_configs_documents
           (Path "/srv/resume/data") (Sample.start Sample.checkout)
           (Sample.start Sample.checkout) _ "profile" "profile.json"
           Sample.profile_text).
  - reflexivity.
  - now left.
  - reflexivity.
  - reflexivity.
Defined.

Lemma load_all_configs_scalar_document_witness :
  load_all_configs (H0 := platform_with_numbers)
    (Path "/srv/resume/data")
    (Sample.start (("/srv/resume/data/skills.json", File "42") :: Sample.checkout))
  = (Raise TypeError,
     Sample.start (("/srv/resume/data/skills.json", File "42") :: Sample.checkout)).
Proof.
  apply (load_all_configs_scalar_document
           (H0 := platform_with_numbers)
           (Path "/srv/resume/data")
           (Sample.start (("/srv/resume/data/skills.json", File "42") :: Sample.checkout))
           "skills_data" "categories" "skills" "skills.json" "42" (VInt 42)).
  - intros key fn Hin. unfold config_files in Hin. cbn [In] in Hin.
    repeat (destruct Hin as [Hin | Hin];
            [injection Hin as <- <-;
             first [ left; reflexivity
                   | right; eexists; eexists; split; reflexivity ]|]).
    contradiction.
  - cbn. tauto.
  - cbn. tauto.
  - reflexivity.
  - reflexivity.
  - reflexivity.
Defined.

(** ** Paths: text and back *)

Lemma prefix_slash_free (part rest : string) :
  good_part part = true ->
  exists c tail, part = String c tail /\ c <> "/"%char.
Proof.
  unfold good_part. destruct part as [|c tail]; [discriminate|].
  cbn [slash_free]. intros [_ [Hc _]%andb_true_iff]%andb_true_iff.
  exists c, tail. split; [reflexivity|].
  intros ->. discriminate Hc.
Qed.

Lemma split_slash_free (s : string) :
  slash_free s = true -> PyStr.split "/" s = [s].
Proof.
  unfold PyStr.split. induction s as [|c s IH]; [reflexivity|].
  cbn [slash_free]. intros [Hc Hs]%andb_true_iff.
  cbn [PyStr.split_from prefix]. rewrite (IH Hs).
  destruct (ascii_dec "/" c) as [<-|_]; [discriminate Hc | reflexivity].
Qed.

Lemma split_slash_app (s t : string) :
  slash_free s = true ->
  PyStr.split "/" (s ++ String "/" t) = s :: PyStr.split "/" t.
Proof.
  unfold PyStr.split. induction s as [|c s IH].
  - intros _. cbn. now rewrite prefix_empty.
  - cbn [slash_free]. intros [Hc Hs]%andb_true_iff.
    cbn [append PyStr.split_from prefix]. rewrite (IH Hs).
    destruct (ascii_dec "/" c) as [<-|_]; [discriminate Hc | reflexivity].
Qed.

(** Splitting what was joined gives the components back. *)
Lemma split_join (parts : list string) :
  parts <> [] -> forallb good_part parts = true ->
  PyStr.split "/" (PyStr.join "/" parts) = parts.
Proof.
  intros Hne Hgood. induction parts as [|part parts IH]; [now elim Hne|].
  cbn [forallb] in Hgood. apply andb_true_iff in Hgood as [Hpart Hparts].
  assert (Hfree : slash_free part = true)
    by (unfold good_part in Hpart; now apply andb_true_iff in Hpart).
  destruct parts as [|next parts].
  - cbn [PyStr.join String.concat]. now apply split_slash_free.
  - change (PyStr.join "/" (part :: next :: parts))
      with (part ++ String "/" (PyStr.join "/" (next :: parts))).
    rewrite (split_slash_app _ _ Hfree), IH; [reflexivity | discriminate | exact Hparts].
Qed.

Lemma filter_good_parts (parts : list string) :
  forallb good_part parts = true ->
  filter (fun part => negb (String.eqb part EmptyString || String.eqb part ".")) parts
  = parts.
Proof.
  induction parts as [|part parts IH]; [reflexivity|].
  cbn [forallb filter]. intros [Hpart Hparts]%andb_true_iff.
  unfold good_part in Hpart. apply andb_true_iff in Hpart as [Hpart _].
  now rewrite Hpart, (IH Hparts).
Qed.

(** An absolute path is read back from its text: [Path(str(p))] is [p]. *)
Lemma Path_of_path_str (p : path) :
  absolute_path p = true -> Path (path_str p) = p.
Proof.
  destruct p as [r ps]. unfold absolute_path. cbn [root parts].
  intros [Hroot Hgood]%andb_true_iff. apply String.eqb_eq in Hroot as ->.
  destruct ps as [|part ps]; [reflexivity|].
  unfold path_str. cbn [root parts].
  pose proof Hgood as Hhead. cbn [forallb] in Hhead.
  apply andb_true_iff in Hhead as [Hpart _].
  destruct (prefix_slash_free part EmptyString Hpart) as (c & tail & Epart & Hc).
  unfold Path. f_equal.
  - rewrite Epart.
    destruct ps; cbn [PyStr.join String.concat append prefix];
      destruct (ascii_dec "/" c) as [<-|_]; try (now elim Hc); reflexivity.
  - change ("/" ++ PyStr.join "/" (part :: ps))
      with (EmptyString ++ String "/" (PyStr.join "/" (part :: ps))).
    rewrite (split_slash_app EmptyString _ eq_refl), split_join;
      [|discriminate | exact Hgood].
    exact (filter_good_parts _ Hgood).
Qed.

Lemma joinpath_good_part (p : path) (name : string) :
  good_part name = true ->
  joinpath p name = {| root := root p; parts := (parts p ++ [name])%list |}.
Proof.
  intros Hname. destruct (prefix_slash_free name EmptyString Hname) as (c & tail & E & Hc).
  assert (Hfree : slash_free name = true)
    by (unfold good_part in Hname; now apply andb_true_iff in Hname).
  assert (Hpath : Path name = {| root := EmptyString; parts := [name] |}).
  { unfold Path. f_equal.
    - rewrite E. cbn [prefix].
      destruct (ascii_dec "/" c) as [<-|_]; [now elim Hc | reflexivity].
    - rewrite (split_slash_free _ Hfree).
      apply (filter_good_parts [name]). cbn [forallb]. now rewrite Hname. }
  unfold joinpath. now rewrite Hpath.
Qed.

Lemma absolute_path_joinpath (p : path) (name : string) :
  absolute_path p = true -> good_part name = true ->
  absolute_path (joinpath p name) = true.
Proof.
  intros Hp Hname. rewrite (joinpath_good_part p name Hname).
  unfold absolute_path in *. cbn [root parts].
  apply andb_true_iff in Hp as [Hroot Hparts].
  rewrite Hroot, forallb_app, Hparts. cbn [forallb]. now rewrite Hname.
Qed.

Lemma path_eqb_eq (p q : path) : path_eqb p q = true -> p = q.
Proof.
  destruct p as [r1 ps1], q as [r2 ps2]. unfold path_eqb. cbn [root parts].
  intros [Hroot Hparts]%andb_true_iff. apply String.eqb_eq in Hroot as ->.
  destruct (list_eq_dec string_dec ps1 ps2) as [->|]; [reflexivity | discriminate].
Qed.

(** ** The driver: where it writes and what the flags default to *)

Section DriverEdges.

Context {F : Type} `{PyFloat F} `{Platform F}.

(** X23: a run changes at most one file, the one named like the last
    component of [--output] in the project root: every other path holds
    after the run what it held before. *)
Theorem run_writes_one_path (args : cli_args) (w : world) (q : path) :
  q = joinpath PROJECT_ROOT (path_name (Path (output_arg args)))
  \/ files (snd (run args w)) q = files w q.
Proof.
  pose proof (run_stages args w) as Hrun. cbv zeta in Hrun.
  set (output_path := joinpath PROJECT_ROOT (path_name (Path (output_arg args)))) in *.
  destruct (load_all_configs _ _) as [[context|e'] w1];
    [|right; now rewrite (proj2 Hrun)].
  destruct (missing_keys context); [|right; now rewrite (proj2 Hrun)].
  destruct (jinja_get_template _ _ _) as [template|e'];
    [|right; destruct e'; now rewrite (proj2 Hrun)].
  destruct (jinja_render template context) as [rendered|e'];
    [|right; destruct e'; now rewrite (proj2 Hrun)].
  destruct (files w output_path) as [[text|]|];
    destruct (files w (path_parent output_path)) as [[text'|]|];
    try (right; now rewrite (proj2 Hrun));
    destruct (os_write (files w) output_path rendered);
    try (right; now rewrite (proj2 Hrun));
    rewrite (proj2 Hrun); unfold write_file;
    destruct (path_eqb q output_path) eqn:E;
    try (left; now apply path_eqb_eq); now right.
Qed.

(** X24: when everything up to the write succeeds and the output path is
    a directory, or the project root is not one, the process ends with
    status 1 and no file is changed. *)
Theorem run_write_failure (args : cli_args) (w w1 : world)
        (context : dict F) (template : jinja_template) (rendered : string) :
  let data_dir := Path (data_dir_arg args) in
  let template_path := Path (template_arg args) in
  let output_path := joinpath PROJECT_ROOT (path_name (Path (output_arg args))) in
  load_all_configs data_dir
    (with_line w ("Loading config files from: " ++ path_str data_dir))
  = (Ret context, w1) ->
  missing_keys context = [] ->
  jinja_get_template (files w) (path_parent template_path) (path_name template_path)
  = Ret template ->
  jinja_render template context = Ret rendered ->
  files w output_path = Some Directory
  \/ files w (path_parent output_path) <> Some Directory ->
  fst (run args w) = 1%Z /\ files (snd (run args w)) = files w.
Proof.
  intros data_dir template_path output_path Hload Hmissing Hget Hrender Hwrite.
  pose proof (run_stages args w) as Hrun. cbv zeta in Hrun.
  fold data_dir template_path output_path in Hrun.
  rewrite Hload, Hmissing, Hget, Hrender in Hrun.
  destruct Hwrite as [Hdir | Hparent].
  - now rewrite Hdir in Hrun.
  - destruct (files w output_path) as [[text|]|];
      destruct (files w (path_parent output_path)) as [[text'|]|];
      try exact Hrun; now elim Hparent.
Qed.

(** X25: without flags, and with the project at an absolute path, [main]
    renders [templates/resume.tex.j2] of the project with the documents
    of its [data] directory into [resume.tex]: the values the flags
    default to are read back as the defaults of [render_resume]. *)
Theorem main_defaults (w : world) :
  absolute_path PROJECT_ROOT = true ->
  main {| arg_template := None; arg_output := None; arg_data_dir := None |} w
  = bind (render_resume TEMPLATE_DIR TEMPLATE_FILE OUTPUT_FILE DATA_DIR)
         (fun success => raise (SystemExit (if success then 0 else 1))) w.
Proof.
  intros Hroot. unfold main, template_arg, output_arg, data_dir_arg.
  cbn [arg_template arg_output arg_data_dir].
  assert (Hdata : absolute_path DATA_DIR = true)
    by now apply absolute_path_joinpath.
  assert (Htemplates : absolute_path TEMPLATE_DIR = true)
    by now apply absolute_path_joinpath.
  rewrite (Path_of_path_str DATA_DIR Hdata).
  rewrite (Path_of_path_str (joinpath TEMPLATE_DIR TEMPLATE_FILE))
    by now apply absolute_path_joinpath.
  rewrite (Path_of_path_str (joinpath PROJECT_ROOT OUTPUT_FILE))
    by now apply absolute_path_joinpath.
  rewrite (joinpath_good_part TEMPLATE_DIR TEMPLATE_FILE eq_refl).
  rewrite (joinpath_good_part PROJECT_ROOT OUTPUT_FILE eq_refl).
  unfold path_parent, path_name. cbn [root parts].
  rewrite removelast_last, !last_last.
  now destruct TEMPLATE_DIR.
Qed.

End DriverEdges.

Lemma run_write_failure_witness :
  fst (run {| arg_template := None; arg_output := Some "/tmp"; arg_data_dir := None |}
           (Sample.start (("/srv/resume/tmp", Directory) :: Sample.checkout)))
  = 1%Z.
Proof.
  apply (@run_write_failure Sample.flt Sample.flt_float Sample.platform
           {| arg_template := None; arg_output := Some "/tmp"; arg_data_dir := None |}
           (Sample.start (("/srv/resume/tmp", Directory) :: Sample.checkout))
           (with_line (Sample.start (("/srv/resume/tmp", Directory) :: Sample.checkout))
                      "Loading config files from: /srv/resume/data")
           [ ("profile", VDict [("name", VStr "Ada")]);
             ("experience_data", VDict [("experience", VList [VStr "Acme"])]);
             ("education_data", VDict [("education", VList [VStr "MIT"])]);
             ("experience", VList [VStr "Acme"]);
             ("education", VList [VStr "MIT"]) ]
           Sample.template_text Sample.template_text).
  - reflexivity.
  - reflexivity.
  - reflexivity.
  - reflexivity.
  - left. reflexivity.
Defined.

Lemma main_defaults_witness :
  main Sample.no_flags (Sample.start Sample.checkout)
  = bind (render_resume TEMPLATE_DIR TEMPLATE_FILE OUTPUT_FILE DATA_DIR)
         (fun success => raise (SystemExit (if success then 0 else 1)))
         (Sample.start Sample.checkout).
Proof.
  apply (@main_defaults Sample.flt Sample.flt_float Sample.platform
           (Sample.start Sample.checkout)).
  reflexivity.
Defined.

Section ExitStatus.

Context {F : Type} `{PyFloat F} `{Platform F}.


End ExitStatus.


(** ** [format_duration]: numbers of any width *)

Lemma of_uint_acc_digits (ds : list nat) :
  Forall (fun d => d < 10)%nat ds ->
  forall acc, Z.pos (Pos.of_uint_acc (uint_of ds) acc) = digits_value (Z.pos acc) ds.
Proof.
  induction 1 as [|d ds Hd _ IH]; intros acc; [reflexivity|].
  cbn [uint_of digits_value].
  do 10 (destruct d as [|d];
         [cbn [digit_uint Pos.of_uint_acc]; rewrite IH; f_equal; cbn [Z.of_nat]; lia|]).
  lia.
Qed.

Lemma of_uint_digits (ds : list nat) :
  Forall (fun d => d < 10)%nat ds ->
  Z.of_uint (uint_of ds) = digits_value 0 ds.
Proof.
  unfold Z.of_uint.
  induction 1 as [|d ds Hd Hds IH]; [reflexivity|].
  cbn [uint_of digits_value].
  destruct d as [|d]; [exact IH|].
  do 9 (destruct d as [|d];
        [cbn [digit_uint Pos.of_uint Z.of_N];
         rewrite (of_uint_acc_digits ds Hds); reflexivity|]).
  lia.
Qed.

Lemma nb_digits_uint_of (ds : list nat) :
  Decimal.nb_digits (uint_of ds) = List.length ds.
Proof.
  induction ds as [|d ds IH]; [reflexivity|].
  cbn [uint_of List.length]. rewrite <- IH.
  do 9 (destruct d as [|d]; [reflexivity|]). reflexivity.
Qed.

Lemma string_of_uint_length (u : Decimal.uint) :
  String.length (NilEmpty.string_of_uint u) = Decimal.nb_digits u.
Proof. induction u; cbn; congruence. Qed.

(** A number is printed with no more digits than it was written with. *)
Lemma of_int_digits_length (ds : list nat) :
  Forall (fun d => d < 10)%nat ds -> ds <> [] ->
  (String.length (PyStr.of_int (digits_value 0 ds)) <= List.length ds)%nat.
Proof.
  intros Hds Hne. unfold PyStr.of_int.
  rewrite <- (of_uint_digits ds Hds).
  change (Z.of_uint (uint_of ds)) with (Z.of_int (Decimal.Pos (uint_of ds))).
  rewrite DecimalZ.to_of. cbn [Decimal.norm NilEmpty.string_of_int].
  rewrite string_of_uint_length, <- nb_digits_uint_of.
  apply DecimalFacts.nb_digits_unorm.
  destruct ds as [|d ds]; [now elim Hne|].
  cbn [uint_of]. do 9 (destruct d as [|d]; [discriminate|]). discriminate.
Qed.

Lemma unsigned_length (text : string) :
  (String.length (match text with String "-" d => d | d => d end)
   <= String.length text)%nat.
Proof.
  destruct text as [|c t]; [reflexivity|].
  each_char c; cbn [String.length]; lia.
Qed.

(** Hence a number read by [int] is printed by [str]. *)
Lemma str_int_digits (ds : list nat) :
  Forall (fun d => d < 10)%nat ds -> ds <> [] ->
  (List.length ds <= PyStr.int_max_str_digits)%nat ->
  PyStr.str_int (digits_value 0 ds) = Ret (PyStr.of_int (digits_value 0 ds)).
Proof.
  intros Hds Hne Hlen. unfold PyStr.str_int. cbv zeta.
  pose proof (of_int_digits_length ds Hds Hne) as Htext.
  pose proof (unsigned_length (PyStr.of_int (digits_value 0 ds))) as Hdigits.
  match goal with
  | |- (if Nat.leb ?a ?b then _ else _) = _ =>
      replace (Nat.leb a b) with true by (symmetry; apply Nat.leb_le; lia)
  end.
  reflexivity.
Qed.

Lemma format_date_digits (ys ms : list nat) :
  Forall (fun d => d < 10)%nat ys -> Forall (fun d => d < 10)%nat ms ->
  ys <> [] -> ms <> [] ->
  (List.length ys <= PyStr.int_max_str_digits)%nat ->
  (List.length ms <= PyStr.int_max_str_digits)%nat ->
  format_date (digits_string ys ++ "-" ++ digits_string ms)
  = (let? name := list_index months (digits_value 0 ms - 1) in
     Ret (name ++ " " ++ PyStr.of_int (digits_value 0 ys))).
Proof.
  intros Hys Hms Nys Nms Lys Lms. unfold format_date.
  change (digits_string ys ++ "-" ++ digits_string ms)
    with (digits_string ys ++ String "-" (digits_string ms)).
  rewrite (split_digits_dash _ _ Hys), (split_digits_only _ Hms).
  change (list_index [digits_string ys; digits_string ms] 0)
    with (Ret (A := string) (digits_string ys)).
  change (list_index [digits_string ys; digits_string ms] 1)
    with (Ret (A := string) (digits_string ms)).
  cbn [obind]. rewrite (int_digits _ Hys Nys Lys). cbn [obind].
  rewrite (int_digits _ Hms Nms Lms). cbn [obind].
  now rewrite (str_int_digits _ Hys Nys Lys).
Qed.

(** X27: year and month are read as numbers, whatever their width up to
    the 4300 digits the interpreter converts: with non-empty runs of at
    most that many digits for the two, and a month that counts from 1 to
    12, the result names the month and prints the year without leading
    zeros ([2022-5] and [22-005] are accepted). *)
Theorem format_duration_any_width (ys ms : list nat) :
  Forall (fun d => d < 10)%nat ys -> Forall (fun d => d < 10)%nat ms ->
  ys <> [] -> ms <> [] ->
  (List.length ys <= PyStr.int_max_str_digits)%nat ->
  (List.length ms <= PyStr.int_max_str_digits)%nat ->
  (1 <= digits_value 0 ms <= 12)%Z ->
  format_duration (digits_string ys ++ "-" ++ digits_string ms) None
  = Ret (date_label (digits_value 0 ys) (digits_value 0 ms) ++ " -- Present").
Proof.
  intros Hys Hms Nys Nms Lys Lms Hmonth. unfold format_duration.
  rewrite (format_date_digits ys ms Hys Hms Nys Nms Lys Lms). unfold date_label.
  generalize dependent (digits_value 0 ms). intros m Hmonth.
  assert (Hcases : (m = 1 \/ m = 2 \/ m = 3 \/ m = 4 \/ m = 5 \/ m = 6 \/ m = 7
                    \/ m = 8 \/ m = 9 \/ m = 10 \/ m = 11 \/ m = 12)%Z) by lia.
  repeat (destruct Hcases as [-> | Hcases]; [reflexivity|]).
  now subst m.
Qed.

Lemma format_duration_any_width_witness :
  format_duration (digits_string [2; 0; 2; 2]%nat ++ "-" ++ digits_string [5]%nat) None
  = Ret "May 2022 -- Present".
Proof.
  apply (format_duration_any_width [2; 0; 2; 2]%nat [5]%nat).
  - repeat constructor.
  - repeat constructor.
  - discriminate.
  - discriminate.
  - apply Nat.leb_le. reflexivity.
  - apply Nat.leb_le. reflexivity.
  - cbn. lia.
Defined.

Lemma latex_escape_by_character_witness : emitted "a" = "a".
Proof.
  apply (proj1 (proj2 (proj2 latex_escape_by_character)) "a"%char). reflexivity.
Defined.

(** ** A write that does not complete *)

(** On a full disk the output file is opened, which empties it, and the
    write fails: the run reports the error and ends with status 1, and
    the text the file held before is gone. *)
Example run_full_disk :
  let before :=
    Sample.start (("/srv/resume/resume.tex", File "\documentclass{old}")
                    :: Sample.checkout) in
  let after := run (H0 := platform_full_disk) Sample.no_flags before in
  fst after = 1%Z
  /\ last (console (snd after)) EmptyString
     = "Error writing output file: [Errno 28] No space left on device"
  /\ files before (Path "/srv/resume/resume.tex") = Some (File "\documentclass{old}")
  /\ files (snd after) (Path "/srv/resume/resume.tex") = Some (File EmptyString).
Proof. vm_compute. repeat split; reflexivity. Qed.

(** ** Numbers beyond the conversion limit *)

(** A run of 4300 digits is still read as a number, one digit more is
    refused by [int]: alone it raises [ValueError], not [IndexError], and
    so it does as the year of a date. *)
Example format_duration_digit_limit :
  format_duration (digits_string (repeat 1%nat 4300)) None = Raise IndexError
  /\ format_duration (digits_string (repeat 1%nat 4301)) None = Raise ValueError
  /\ format_duration (digits_string (repeat 1%nat 4301) ++ "-05") None
     = Raise ValueError
  /\ format_duration (digits_string (repeat 0%nat 4296 ++ [2; 0; 2; 2]%nat) ++ "-05") None
     = Ret "May 2022 -- Present".
Proof. vm_compute. repeat split; reflexivity. Qed.
